(** * CHEB-PLACE API: a shallow embedding of [main.py]

    The backend keeps six tables in SQLite through SQLAlchemy and serves
    them through FastAPI routes.  This development models

    - Python [str] values as sequences of Unicode code points,
    - every table as the list of its rows in rowid order,
    - a request as a computation over a unit of work (the SQLAlchemy
      session): writes go to the session's view of the database and reach
      the database at [db.commit()]; whatever is uncommitted when the
      request ends is dropped,
    - the media directories as a list of written files (file writes are not
      transactional),
    - the declarative FastAPI layer of each route: the [require_admin]
      dependency, the declared request constraints, the handler, and the
      validation of the handler's value against [response_model].

    Identifiers and ratings range over [Z], as Python integers do; the
    SQLite driver binds an integer parameter only if it fits in 64 bits
    and a text parameter only if it encodes as UTF-8, and raises
    otherwise. *)

From Stdlib Require Import ZArith NArith List String Ascii Lia Bool.
From Stdlib Require Import DecimalString Sorted Permutation.
From stdpp Require Import base decidable option list sorting.

Local Open Scope Z_scope.

(** ** Python strings *)

Module PyStr.

(** A Python [str] is a sequence of code points. *)
Definition str := list N.

Definition byte_of (c : ascii) : N := N_of_ascii c.

Fixpoint bytes_of (s : string) : list N :=
  match s with
  | EmptyString => []
  | String c s' => byte_of c :: bytes_of s'
  end.

(** Continuation byte [10xxxxxx]: its six payload bits. *)
Definition cont (b : N) : N := N.land b 63.

(** Decoder for the UTF-8 text of this file's literals; [fuel] bounds the
    number of code points. *)
Fixpoint utf8_decode (fuel : nat) (bs : list N) : str :=
  match fuel with
  | O => []
  | S fuel' =>
      match bs with
      | [] => []
      | b0 :: r0 =>
          if (b0 <? 128)%N then b0 :: utf8_decode fuel' r0
          else if (b0 <? 224)%N then
            match r0 with
            | b1 :: r1 =>
                (N.land b0 31 * 64 + cont b1)%N :: utf8_decode fuel' r1
            | _ => []
            end
          else if (b0 <? 240)%N then
            match r0 with
            | b1 :: b2 :: r2 =>
                (N.land b0 15 * 4096 + cont b1 * 64 + cont b2)%N
                  :: utf8_decode fuel' r2
            | _ => []
            end
          else
            match r0 with
            | b1 :: b2 :: b3 :: r3 =>
                (N.land b0 7 * 262144 + cont b1 * 4096 + cont b2 * 64
                 + cont b3)%N :: utf8_decode fuel' r3
            | _ => []
            end
      end
  end.

(** The Python literal written as [s] in the source. *)
Definition lit (s : string) : str :=
  utf8_decode (String.length s) (bytes_of s).

(** [str(n)] for an integer. *)
Definition of_Z (n : Z) : str :=
  bytes_of (NilZero.string_of_int (Z.to_int n)).

Definition LF : N := 10.
Definition CR : N := 13.

(** [c in v] for a one-character string [c]. *)
Definition contains (c : N) (v : str) : bool :=
  existsb (N.eqb c) v.

Definition eqb (a b : str) : bool := bool_decide (a = b).

(** Truthiness of a string: [bool(v)]. *)
Definition truthy (v : str) : bool :=
  match v with [] => false | _ => true end.

End PyStr.

Abbreviation pystr := PyStr.str.
Abbreviation py := PyStr.lit.

Arguments PyStr.lit : simpl never.
Arguments PyStr.of_Z : simpl never.

(** ** Data model (the SQLAlchemy tables) *)

Inductive ReviewStatus := pending | approved.

#[global] Instance ReviewStatus_eq_dec : EqDecision ReviewStatus.
Proof. solve_decision. Defined.

Module Place.
Record t := mk
  { id : Z; name : pystr; category : pystr; lat : pystr; lng : pystr;
    description : option pystr }.
End Place.

Module Review.
(** [created_at] is the database's clock reading, in seconds. *)
Record t := mk
  { id : Z; place_id : Z; author_name : option pystr; rating : Z;
    text : pystr; status : ReviewStatus; created_at : Z }.

Definition with_status (st : ReviewStatus) (r : t) : t :=
  mk (id r) (place_id r) (author_name r) (rating r) (text r) st
     (created_at r).
End Review.

Module ReviewPhoto.
Record t := mk { id : Z; review_id : Z; url : pystr }.
End ReviewPhoto.

Module Event.
(** [date] is a calendar day, as its ordinal. *)
Record t := mk
  { id : Z; title : pystr; date : Z; short_info : pystr;
    cover_url : option pystr }.
End Event.

Module GallerySection.
Record t := mk { id : Z; name : pystr }.
End GallerySection.

Module GalleryPhoto.
Record t := mk { id : Z; section_id : Z; url : pystr }.
End GalleryPhoto.

Module Feedback.
Record t := mk
  { id : Z; name : pystr; contact : option pystr; message : pystr;
    is_read : bool; created_at : Z }.

Definition with_is_read (b : bool) (f : t) : t :=
  mk (id f) (name f) (contact f) (message f) b (created_at f).
End Feedback.

(** The database: each table is the list of its rows in rowid order. *)
Record Store := mkStore
  { places : list Place.t;
    reviews : list Review.t;
    review_photos : list ReviewPhoto.t;
    events : list Event.t;
    gallery_sections : list GallerySection.t;
    gallery_photos : list GalleryPhoto.t;
    feedback : list Feedback.t }.

Definition empty_store : Store := mkStore [] [] [] [] [] [] [].

Definition set_places f (s : Store) : Store :=
  mkStore (f (places s)) (reviews s) (review_photos s) (events s)
          (gallery_sections s) (gallery_photos s) (feedback s).
Definition set_reviews f (s : Store) : Store :=
  mkStore (places s) (f (reviews s)) (review_photos s) (events s)
          (gallery_sections s) (gallery_photos s) (feedback s).
Definition set_review_photos f (s : Store) : Store :=
  mkStore (places s) (reviews s) (f (review_photos s)) (events s)
          (gallery_sections s) (gallery_photos s) (feedback s).
Definition set_events f (s : Store) : Store :=
  mkStore (places s) (reviews s) (review_photos s) (f (events s))
          (gallery_sections s) (gallery_photos s) (feedback s).
Definition set_gallery_sections f (s : Store) : Store :=
  mkStore (places s) (reviews s) (review_photos s) (events s)
          (f (gallery_sections s)) (gallery_photos s) (feedback s).
Definition set_gallery_photos f (s : Store) : Store :=
  mkStore (places s) (reviews s) (review_photos s) (events s)
          (gallery_sections s) (f (gallery_photos s)) (feedback s).
Definition set_feedback f (s : Store) : Store :=
  mkStore (places s) (reviews s) (review_photos s) (events s)
          (gallery_sections s) (gallery_photos s) (f (feedback s)).

(** An integer primary key without AUTOINCREMENT: 1 in an empty table,
    else one more than the largest key in use. *)
Definition next_id (ids : list Z) : Z :=
  match ids with
  | [] => 1
  | i :: rest => 1 + fold_right Z.max i rest
  end.

(** ** Errors *)

(** [HTTPException] is raised by the handlers; request validation failures
    are FastAPI's [RequestValidationError] (status 422); a handler value
    that does not validate against [response_model], like any other
    exception that is not an [HTTPException], surfaces as status 500. *)
Inductive HTTPError :=
| HTTPException (status_code : Z) (detail : pystr)
| RequestValidationError
| InternalServerError.

Definition status_of (e : HTTPError) : Z :=
  match e with
  | HTTPException c _ => c
  | RequestValidationError => 422
  | InternalServerError => 500
  end.

Inductive ErrorKind := ValidationError | NotFound | Unauthorized | ServerFailure.

(** The error kinds of the service: rejected input (400 from a handler, 422
    from the declared request constraints), unknown identifier, missing or
    wrong admin credential. *)
Definition kind_of (e : HTTPError) : ErrorKind :=
  match status_of e with
  | 400 | 422 => ValidationError
  | 404 => NotFound
  | 401 => Unauthorized
  | _ => ServerFailure
  end.

Inductive Result (A : Type) :=
| Ok (a : A)
| Err (e : HTTPError).
Arguments Ok {A} a.
Arguments Err {A} e.

(** ** The unit of work of one request *)

(** What the request sees of the outside: the database state before it,
    and the files of the media directories (the log of writes, latest last;
    paths are relative to [BASE_DIR]). *)
Record World := mkWorld
  { database : Store;
    media : list (pystr * pystr) }.

(** [committed] is the database; [session] is the state as the open
    transaction sees it. *)
Record Work := mkWork
  { committed : Store;
    session : Store;
    disk : list (pystr * pystr) }.

Definition M (A : Type) : Type := Work -> Result A * Work.

Definition ret {A} (a : A) : M A := fun u => (Ok a, u).

Definition bind {A B} (m : M A) (k : A -> M B) : M B :=
  fun u =>
    match m u with
    | (Ok a, u') => k a u'
    | (Err e, u') => (Err e, u')
    end.

Notation "'do' x <- m ; k" := (bind m (fun x => k))
  (at level 10, x name, m at level 100, k at level 200).

Definition raise {A} (e : HTTPError) : M A := fun u => (Err e, u).

(** [db.query(...)]: a read through the session. *)
Definition query {A} (q : Store -> A) : M A :=
  fun u => (Ok (q (session u)), u).

(** An INSERT, UPDATE or DELETE issued in the open transaction. *)
Definition execute (f : Store -> Store) : M unit :=
  fun u => (Ok tt, mkWork (committed u) (f (session u)) (disk u)).

(** [db.commit()] *)
Definition commit : M unit :=
  fun u => (Ok tt, mkWork (session u) (session u) (disk u)).

(** [Path.write_bytes] *)
Definition write_bytes (path content : pystr) : M unit :=
  fun u => (Ok tt, mkWork (committed u) (session u)
                          (disk u ++ [(path, content)])).

(** [get_db]: open a session, run the request, close the session (which
    drops whatever was not committed). *)
Definition run_request {A} (m : M A) (w : World) : Result A * World :=
  let '(r, u) := m (mkWork (database w) (database w) (media w)) in
  (r, mkWorld (committed u) (disk u)).

(** ** What the runtime supplies *)

Record UploadFile := mkUpload
  { filename : option pystr;
    content : pystr }.

(** [db_now]: the database clock at the request ([func.now()]);
    [utc_stamp k]: the text of [datetime.utcnow().timestamp()] at the k-th
    reading within the request; [path_suffix]: pathlib's [Path(..).suffix];
    [http_url_ok]: pydantic's [HttpUrl] validation. *)
Record Runtime := mkRuntime
  { db_now : Z;
    utc_stamp : nat -> pystr;
    path_suffix : pystr -> pystr;
    http_url_ok : pystr -> bool }.

(** ** Pydantic schemas *)

Record ReviewPhotoOut := mkReviewPhotoOut
  { rpo_id : Z; rpo_url : pystr }.

Record ReviewOut := mkReviewOut
  { ro_id : Z; ro_place_id : Z; ro_author_name : option pystr;
    ro_rating : Z; ro_text : pystr; ro_created_at : Z;
    ro_photos : list ReviewPhotoOut }.

Record GalleryPhotoOut := mkGalleryPhotoOut
  { gpo_id : Z; gpo_url : pystr }.

Record GallerySectionOut := mkGallerySectionOut
  { gso_id : Z; gso_name : pystr; gso_photos : list GalleryPhotoOut }.

Record FeedbackCreate := mkFeedbackCreate
  { fc_name : pystr; fc_contact : option pystr; fc_message : pystr }.

Record PlaceCreate := mkPlaceCreate
  { pc_name : pystr; pc_category : pystr; pc_lat : pystr; pc_lng : pystr;
    pc_description : option pystr }.

Record EventCreate := mkEventCreate
  { ec_title : pystr; ec_date : Z; ec_short_info : pystr;
    ec_cover_url : option pystr }.

Record GallerySectionCreate := mkGallerySectionCreate
  { gsc_name : pystr }.

Record GalleryPhotoCreate := mkGalleryPhotoCreate
  { gpc_section_id : Z; gpc_url : pystr }.

(** [EventCreate.validate_short_info] *)
Definition validate_short_info (v : pystr) : Result pystr :=
  if PyStr.contains PyStr.LF v || PyStr.contains PyStr.CR v
  then Err RequestValidationError
  else Ok v.

(** Validation of an [EventCreate] body: the declared [max_length=255] of
    [short_info], then its validator. *)
Definition parse_EventCreate (payload : EventCreate) : M EventCreate :=
  if bool_decide (255 < Z.of_nat (length (ec_short_info payload)))
  then raise RequestValidationError
  else match validate_short_info (ec_short_info payload) with
       | Ok _ => ret payload
       | Err e => raise e
       end.

(** ** Admin key *)

Definition ADMIN_API_KEY : pystr := py "change-me-admin-key".

Definition require_admin (api_key : option pystr) : M unit :=
  if bool_decide (api_key <> Some ADMIN_API_KEY)
  then raise (HTTPException 401 (py "Invalid or missing admin key"))
  else ret tt.

(** ** Row operations of the session *)

(** [db.add(row)] followed by the flush that assigns the key.  Where the
    source leaves the flush to [db.commit()], no query runs in between. *)
Definition add_place (name category lat lng : pystr)
    (description : option pystr) : M Place.t :=
  do i <- query (fun s => next_id (map Place.id (places s)));
  let row := Place.mk i name category lat lng description in
  do _ <- execute (set_places (fun t => t ++ [row]));
  ret row.

Definition add_review (rt : Runtime) (place_id : Z)
    (author_name : option pystr) (rating : Z) (text : pystr)
    (status : ReviewStatus) : M Review.t :=
  do i <- query (fun s => next_id (map Review.id (reviews s)));
  let row := Review.mk i place_id author_name rating text status (db_now rt) in
  do _ <- execute (set_reviews (fun t => t ++ [row]));
  ret row.

Definition add_review_photo (review_id : Z) (url : pystr) : M ReviewPhoto.t :=
  do i <- query (fun s => next_id (map ReviewPhoto.id (review_photos s)));
  let row := ReviewPhoto.mk i review_id url in
  do _ <- execute (set_review_photos (fun t => t ++ [row]));
  ret row.

Definition add_event (title : pystr) (date : Z) (short_info : pystr)
    (cover_url : option pystr) : M Event.t :=
  do i <- query (fun s => next_id (map Event.id (events s)));
  let row := Event.mk i title date short_info cover_url in
  do _ <- execute (set_events (fun t => t ++ [row]));
  ret row.

Definition add_gallery_section (name : pystr) : M GallerySection.t :=
  do i <- query (fun s => next_id (map GallerySection.id (gallery_sections s)));
  let row := GallerySection.mk i name in
  do _ <- execute (set_gallery_sections (fun t => t ++ [row]));
  ret row.

Definition add_gallery_photo (section_id : Z) (url : pystr)
    : M GalleryPhoto.t :=
  do i <- query (fun s => next_id (map GalleryPhoto.id (gallery_photos s)));
  let row := GalleryPhoto.mk i section_id url in
  do _ <- execute (set_gallery_photos (fun t => t ++ [row]));
  ret row.

Definition add_feedback (rt : Runtime) (name : pystr)
    (contact : option pystr) (message : pystr) (is_read : bool)
    : M Feedback.t :=
  do i <- query (fun s => next_id (map Feedback.id (feedback s)));
  let row := Feedback.mk i name contact message is_read (db_now rt) in
  do _ <- execute (set_feedback (fun t => t ++ [row]));
  ret row.

(** [db.refresh(row)]: the row as the database has it now. *)
Definition refresh {A} (table : Store -> list A) (key : A -> Z) (row : A)
    : M A :=
  do found <- query (fun s =>
    List.find (fun r => bool_decide (key r = key row)) (table s));
  match found with
  | Some r => ret r
  | None => raise InternalServerError
  end.

(** *** What the driver binds *)

(** A Python integer that fits a signed 64-bit SQLite integer. *)
Definition sqlite_int_ok (i : Z) : bool :=
  (- 2 ^ 63 <=? i) && (i <? 2 ^ 63).

(** An integer parameter the driver accepts in a comparison with a column:
    one that fits.  The values the column holds are SQLite integers. *)
Definition bindable_int (column : list Z) (i : Z) : bool :=
  sqlite_int_ok i || existsb (Z.eqb i) column.

(** A surrogate code point. *)
Definition surrogate (c : N) : bool :=
  ((55296 <=? c) && (c <=? 57343))%N.

(** A string that encodes as UTF-8: one without surrogates. *)
Definition encodable (v : pystr) : bool :=
  forallb (fun c => negb (surrogate c)) v.

(** The text parameters an optional column contributes. *)
Definition opt_param (v : option pystr) : list pystr :=
  match v with
  | Some t => [t]
  | None => []
  end.

(** Binding an integer parameter compared with [column]: [OverflowError]
    when it does not fit. *)
Definition bind_int (column : Store -> list Z) (i : Z) : M unit :=
  do ok <- query (fun s => bindable_int (column s) i);
  if ok then ret tt else raise InternalServerError.

(** Binding the text parameters of a statement whose strings come from a
    JSON body: [UnicodeEncodeError] when one does not encode.  (Form values
    and file names are decoded from the request bytes and always
    encode.) *)
Definition bind_text (params : list pystr) : M unit :=
  if forallb encodable params then ret tt else raise InternalServerError.

(** [.filter(T.id == i).first()] *)
Definition first_by {A} (key : A -> Z) (i : Z) (rows : list A) : option A :=
  List.find (fun r => bool_decide (key r = i)) rows.

(** [db.query(T).filter(T.id == i).first()] with [i] from the request. *)
Definition select_first {A} (table : Store -> list A) (key : A -> Z) (i : Z)
    : M (option A) :=
  do _ <- bind_int (fun s => map key (table s)) i;
  query (fun s => first_by key i (table s)).

(** [UPDATE .. WHERE id = i] *)
Definition update_by {A} (key : A -> Z) (i : Z) (f : A -> A) (rows : list A)
    : list A :=
  map (fun r => if bool_decide (key r = i) then f r else r) rows.

(** [DELETE .. WHERE key = i] *)
Definition delete_by {A} (key : A -> Z) (i : Z) (rows : list A) : list A :=
  filter (fun r => key r <> i) rows.

(** [ORDER BY created_at DESC] and [ORDER BY date ASC]; the order among
    equal keys is whatever the sort leaves. *)
Definition newer (a b : Review.t) : Prop :=
  Review.created_at b <= Review.created_at a.
Definition newer_feedback (a b : Feedback.t) : Prop :=
  Feedback.created_at b <= Feedback.created_at a.
Definition earlier (a b : Event.t) : Prop :=
  Event.date a <= Event.date b.

#[global] Instance newer_dec a b : Decision (newer a b).
Proof. unfold newer; apply _. Defined.
#[global] Instance newer_feedback_dec a b : Decision (newer_feedback a b).
Proof. unfold newer_feedback; apply _. Defined.
#[global] Instance earlier_dec a b : Decision (earlier a b).
Proof. unfold earlier; apply _. Defined.

(** ** Handlers *)

(** [value or fallback] on strings. *)
Definition str_or (v fallback : pystr) : pystr :=
  if PyStr.truthy v then v else fallback.

Definition list_places : M (list Place.t) :=
  query places.

(** The loop of [create_review] over the uploaded files; [k] counts the
    clock readings. *)
Fixpoint save_review_photos (rt : Runtime) (review_id : Z) (k : nat)
    (file_list : list UploadFile) : M unit :=
  match file_list with
  | [] => ret tt
  | uploaded :: rest =>
      let ext :=
        str_or (path_suffix rt (default [] (filename uploaded))) (py ".jpg") in
      let filename :=
        py "review_" ++ PyStr.of_Z review_id ++ py "_" ++ utc_stamp rt k
           ++ ext in
      let file_path := py "static/review_photos/" ++ filename in
      do _ <- write_bytes file_path (content uploaded);
      let url := py "/static/review_photos/" ++ filename in
      do _ <- add_review_photo review_id url;
      save_review_photos rt review_id (S k) rest
  end.

Definition create_review (rt : Runtime) (place_id : Z)
    (author_name : option pystr) (rating : Z) (text : pystr)
    (files : option (list UploadFile)) : M (Z * ReviewStatus) :=
  do place <- select_first places Place.id place_id;
  match place with
  | None => raise (HTTPException 404 (py "Локация не найдена"))
  | Some _ =>
      let file_list := default [] files in
      if (5 <? length file_list)%nat
      then raise (HTTPException 400
                    (py "Можно загрузить не более 5 изображений"))
      else
        do review <- add_review rt place_id author_name rating text pending;
        do _ <- save_review_photos rt (Review.id review) 0 file_list;
        do _ <- commit;
        do review <- refresh reviews Review.id review;
        ret (Review.id review, Review.status review)
  end.

Definition list_reviews (place_id : Z) : M (list Review.t) :=
  do _ <- bind_int (fun s => map Review.place_id (reviews s)) place_id;
  query (fun s =>
    merge_sort newer
      (filter (fun r => Review.place_id r = place_id
                        /\ Review.status r = approved)
              (reviews s))).

Definition list_events : M (list Event.t) :=
  query (fun s => merge_sort earlier (events s)).

Definition get_gallery : M (list GallerySection.t) :=
  query gallery_sections.

Definition upload_gallery_photo (rt : Runtime) (file : UploadFile)
    (section_name : pystr)
    : M (GalleryPhoto.t * GallerySection.t) :=
  match filename file with
  | Some name =>
      if negb (PyStr.truthy name)
      then raise (HTTPException 400 (py "Файл не выбран"))
      else
        do found <- query (fun s =>
          List.find (fun g => PyStr.eqb (GallerySection.name g) section_name)
                    (gallery_sections s));
        do section <- match found with
                      | Some g => ret g
                      | None => add_gallery_section section_name
                      end;
        let ext := str_or (path_suffix rt name) (py ".jpg") in
        let filename :=
          py "gallery_" ++ PyStr.of_Z (GallerySection.id section) ++ py "_"
             ++ utc_stamp rt 0 ++ ext in
        let file_path := py "static/gallery_photos/" ++ filename in
        do _ <- write_bytes file_path (content file);
        let url := py "/static/gallery_photos/" ++ filename in
        do photo <- add_gallery_photo (GallerySection.id section) url;
        do _ <- commit;
        do photo <- refresh gallery_photos GalleryPhoto.id photo;
        ret (photo, section)
  | None => raise (HTTPException 400 (py "Файл не выбран"))
  end.

Definition create_feedback (rt : Runtime) (payload : FeedbackCreate)
    : M Feedback.t :=
  do _ <- bind_text ([fc_name payload] ++ opt_param (fc_contact payload)
                      ++ [fc_message payload]);
  do fb <- add_feedback rt (fc_name payload) (fc_contact payload)
                        (fc_message payload) false;
  do _ <- commit;
  refresh feedback Feedback.id fb.

Definition admin_list_pending_reviews : M (list Review.t) :=
  query (fun s =>
    merge_sort newer
      (filter (fun r => Review.status r = pending) (reviews s))).

Definition admin_approve_review (review_id : Z) : M (Z * ReviewStatus) :=
  do review <- select_first reviews Review.id review_id;
  match review with
  | None => raise (HTTPException 404 (py "Отзыв не найден"))
  | Some r =>
      do _ <- execute (set_reviews
                (update_by Review.id (Review.id r)
                           (Review.with_status approved)));
      do _ <- commit;
      do r <- refresh reviews Review.id r;
      ret (Review.id r, Review.status r)
  end.

Definition admin_create_place (payload : PlaceCreate) : M Place.t :=
  do _ <- bind_text ([pc_name payload; pc_category payload; pc_lat payload;
                       pc_lng payload] ++ opt_param (pc_description payload));
  do place <- add_place (pc_name payload) (pc_category payload)
                        (pc_lat payload) (pc_lng payload)
                        (pc_description payload);
  do _ <- commit;
  refresh places Place.id place.

Definition admin_create_event (payload : EventCreate) : M Event.t :=
  do _ <- bind_text ([ec_title payload; ec_short_info payload]
                      ++ opt_param (ec_cover_url payload));
  do event <- add_event (ec_title payload) (ec_date payload)
                        (ec_short_info payload) (ec_cover_url payload);
  do _ <- commit;
  refresh events Event.id event.

Definition admin_create_gallery_section (payload : GallerySectionCreate)
    : M GallerySection.t :=
  do _ <- bind_text [gsc_name payload];
  do section <- add_gallery_section (gsc_name payload);
  do _ <- commit;
  refresh gallery_sections GallerySection.id section.

Definition admin_add_gallery_photo (payload : GalleryPhotoCreate)
    : M GalleryPhoto.t :=
  do section <- select_first gallery_sections GallerySection.id
                              (gpc_section_id payload);
  match section with
  | None => raise (HTTPException 404 (py "Раздел галереи не найден"))
  | Some _ =>
      do _ <- bind_text [gpc_url payload];
      do photo <- add_gallery_photo (gpc_section_id payload)
                                    (gpc_url payload);
      do _ <- commit;
      refresh gallery_photos GalleryPhoto.id photo
  end.

Definition admin_list_events : M (list Event.t) :=
  query (fun s => merge_sort earlier (events s)).

Definition admin_update_event (event_id : Z) (payload : EventCreate)
    : M Event.t :=
  do event <- select_first events Event.id event_id;
  match event with
  | None => raise (HTTPException 404 (py "Мероприятие не найдено"))
  | Some e =>
      let e' := Event.mk (Event.id e) (ec_title payload) (ec_date payload)
                         (ec_short_info payload) (ec_cover_url payload) in
      do _ <- bind_text ([ec_title payload; ec_short_info payload]
                          ++ opt_param (ec_cover_url payload));
      do _ <- execute (set_events
                (update_by Event.id (Event.id e) (fun _ => e')));
      do _ <- commit;
      refresh events Event.id e'
  end.

Definition admin_delete_event (event_id : Z) : M Z :=
  do event <- select_first events Event.id event_id;
  match event with
  | None => raise (HTTPException 404 (py "Мероприятие не найдено"))
  | Some e =>
      do _ <- execute (set_events (delete_by Event.id (Event.id e)));
      do _ <- commit;
      ret event_id
  end.

Definition admin_rename_gallery_section (section_id : Z)
    (payload : GallerySectionCreate) : M GallerySection.t :=
  do section <- select_first gallery_sections GallerySection.id section_id;
  match section with
  | None => raise (HTTPException 404 (py "Раздел галереи не найден"))
  | Some g =>
      let g' := GallerySection.mk (GallerySection.id g) (gsc_name payload) in
      do _ <- bind_text [gsc_name payload];
      do _ <- execute (set_gallery_sections
                (update_by GallerySection.id (GallerySection.id g)
                           (fun _ => g')));
      do _ <- commit;
      refresh gallery_sections GallerySection.id g'
  end.

(** Deleting a section deletes its photos first ([cascade] of
    [GallerySection.photos]). *)
Definition admin_delete_gallery_section (section_id : Z) : M Z :=
  do section <- select_first gallery_sections GallerySection.id section_id;
  match section with
  | None => raise (HTTPException 404 (py "Раздел галереи не найден"))
  | Some g =>
      do _ <- execute (set_gallery_photos
                (delete_by GalleryPhoto.section_id (GallerySection.id g)));
      do _ <- execute (set_gallery_sections
                (delete_by GallerySection.id (GallerySection.id g)));
      do _ <- commit;
      ret section_id
  end.

Definition admin_delete_gallery_photo (photo_id : Z) : M Z :=
  do photo <- select_first gallery_photos GalleryPhoto.id photo_id;
  match photo with
  | None => raise (HTTPException 404 (py "Фотография не найдена"))
  | Some p =>
      do _ <- execute (set_gallery_photos
                (delete_by GalleryPhoto.id (GalleryPhoto.id p)));
      do _ <- commit;
      ret photo_id
  end.

Definition admin_list_feedback : M (list Feedback.t) :=
  query (fun s => merge_sort newer_feedback (feedback s)).

Definition admin_mark_feedback_read (feedback_id : Z) : M (Z * bool) :=
  do fb <- select_first feedback Feedback.id feedback_id;
  match fb with
  | None => raise (HTTPException 404 (py "Сообщение не найдено"))
  | Some f =>
      do _ <- execute (set_feedback
                (update_by Feedback.id (Feedback.id f)
                           (Feedback.with_is_read true)));
      do _ <- commit;
      do f <- refresh feedback Feedback.id f;
      ret (Feedback.id f, Feedback.is_read f)
  end.

(** ** Routes *)

Inductive Request :=
| GET_places
| POST_reviews (place_id : Z) (author_name : option pystr) (rating : Z)
               (text : pystr) (files : option (list UploadFile))
| GET_reviews (place_id : Z)
| GET_events
| GET_gallery
| POST_gallery_upload (file : UploadFile) (section_name : option pystr)
| POST_feedback (payload : FeedbackCreate)
| GET_admin_reviews_pending
| POST_admin_reviews_approve (review_id : Z)
| POST_admin_places (payload : PlaceCreate)
| POST_admin_events (payload : EventCreate)
| POST_admin_gallery_sections (payload : GallerySectionCreate)
| POST_admin_gallery_photos (payload : GalleryPhotoCreate)
| GET_admin_events
| PUT_admin_events (event_id : Z) (payload : EventCreate)
| DELETE_admin_events (event_id : Z)
| PUT_admin_gallery_sections (section_id : Z) (payload : GallerySectionCreate)
| DELETE_admin_gallery_sections (section_id : Z)
| DELETE_admin_gallery_photos (photo_id : Z)
| GET_admin_feedback
| POST_admin_feedback_mark_read (feedback_id : Z).

(** The routes under [/admin]. *)
Definition admin_only (req : Request) : bool :=
  match req with
  | GET_places | POST_reviews _ _ _ _ _ | GET_reviews _ | GET_events
  | GET_gallery | POST_gallery_upload _ _ | POST_feedback _ => false
  | GET_admin_reviews_pending | POST_admin_reviews_approve _
  | POST_admin_places _ | POST_admin_events _
  | POST_admin_gallery_sections _ | POST_admin_gallery_photos _
  | GET_admin_events | PUT_admin_events _ _ | DELETE_admin_events _
  | PUT_admin_gallery_sections _ _ | DELETE_admin_gallery_sections _
  | DELETE_admin_gallery_photos _ | GET_admin_feedback
  | POST_admin_feedback_mark_read _ => true
  end.

Inductive Response :=
| PlaceList (l : list Place.t)
| ReviewCreated (id : Z) (status : ReviewStatus)
| ReviewList (l : list ReviewOut)
| EventList (l : list Event.t)
| Gallery (l : list GallerySectionOut)
| PhotoUploaded (id : Z) (url : pystr) (section_id : Z) (section_name : pystr)
| FeedbackItem (f : Feedback.t)
| FeedbackList (l : list Feedback.t)
| ReviewApproved (id : Z) (status : ReviewStatus)
| PlaceItem (p : Place.t)
| EventItem (e : Event.t)
| SectionItem (g : GallerySectionOut)
| PhotoItem (p : GalleryPhotoOut)
| Deleted (id : Z)
| FeedbackRead (id : Z) (is_read : bool).

(** *** Request validation *)

(** The form of [create_review]: [rating] is declared [ge=1, le=5]; [text]
    is required, and an empty form value counts as missing. *)
Definition rating_in_range (rating : Z) : bool :=
  (1 <=? rating) && (rating <=? 5).

Definition parse_review_form (rating : Z) (text : pystr) : M unit :=
  if negb (rating_in_range rating) then raise RequestValidationError
  else if negb (PyStr.truthy text) then raise RequestValidationError
  else ret tt.

(** [author_name: Optional[str] = Form(None)]: a missing or empty form
    value takes the default [None]. *)
Definition form_author_name (v : option pystr) : option pystr :=
  match v with
  | Some n => if PyStr.truthy n then Some n else None
  | None => None
  end.

Definition default_section_name : pystr := py "Общие".

(** [section_name: str = Form("Общие")]: a missing or empty form value
    takes the default. *)
Definition form_section_name (v : option pystr) : pystr :=
  match v with
  | Some n => if PyStr.truthy n then n else default_section_name
  | None => default_section_name
  end.

(** *** Response models *)

Definition review_photo_out (p : ReviewPhoto.t) : ReviewPhotoOut :=
  mkReviewPhotoOut (ReviewPhoto.id p) (ReviewPhoto.url p).

(** [ReviewOut] has no [status]; [photos] is the relationship
    [Review.photos]. *)
Definition review_out (s : Store) (r : Review.t) : ReviewOut :=
  mkReviewOut (Review.id r) (Review.place_id r) (Review.author_name r)
    (Review.rating r) (Review.text r) (Review.created_at r)
    (map review_photo_out
       (filter (fun p => ReviewPhoto.review_id p = Review.id r)
               (review_photos s))).

Definition gallery_photo_out (p : GalleryPhoto.t) : GalleryPhotoOut :=
  mkGalleryPhotoOut (GalleryPhoto.id p) (GalleryPhoto.url p).

Definition gallery_section_out (s : Store) (g : GallerySection.t)
    : GallerySectionOut :=
  mkGallerySectionOut (GallerySection.id g) (GallerySection.name g)
    (map gallery_photo_out
       (filter (fun p => GalleryPhoto.section_id p = GallerySection.id g)
               (gallery_photos s))).

(** [ReviewOut.rating] is declared [ge=1, le=5]. *)
Definition respond_reviews (rows : list Review.t) : M Response :=
  if forallb (fun r => rating_in_range (Review.rating r)) rows
  then do outs <- query (fun s => map (review_out s) rows);
       ret (ReviewList outs)
  else raise InternalServerError.

(** [EventOut.cover_url] is declared [Optional[HttpUrl]]. *)
Definition event_out_ok (rt : Runtime) (e : Event.t) : bool :=
  match Event.cover_url e with
  | None => true
  | Some u => http_url_ok rt u
  end.

Definition respond_event (rt : Runtime) (e : Event.t) : M Response :=
  if event_out_ok rt e then ret (EventItem e) else raise InternalServerError.

Definition respond_events (rt : Runtime) (rows : list Event.t) : M Response :=
  if forallb (event_out_ok rt) rows then ret (EventList rows)
  else raise InternalServerError.

Definition respond_section (g : GallerySection.t) : M Response :=
  do out <- query (fun s => gallery_section_out s g);
  ret (SectionItem out).

(** *** Dispatch *)

(** One request: the route's dependencies, its request validation, the
    handler, then the response model. *)
Definition route (rt : Runtime) (api_key : option pystr) (req : Request)
    : M Response :=
  match req with
  | GET_places =>
      do rows <- list_places; ret (PlaceList rows)
  | POST_reviews place_id author_name rating text files =>
      do _ <- parse_review_form rating text;
      do r <- create_review rt place_id (form_author_name author_name) rating
                            text files;
      ret (ReviewCreated (fst r) (snd r))
  | GET_reviews place_id =>
      do rows <- list_reviews place_id; respond_reviews rows
  | GET_events =>
      do rows <- list_events; respond_events rt rows
  | GET_gallery =>
      do rows <- get_gallery;
      do outs <- query (fun s => map (gallery_section_out s) rows);
      ret (Gallery outs)
  | POST_gallery_upload file section_name =>
      do r <- upload_gallery_photo rt file (form_section_name section_name);
      ret (PhotoUploaded (GalleryPhoto.id (fst r)) (GalleryPhoto.url (fst r))
             (GallerySection.id (snd r)) (GallerySection.name (snd r)))
  | POST_feedback payload =>
      do fb <- create_feedback rt payload; ret (FeedbackItem fb)
  | GET_admin_reviews_pending =>
      do _ <- require_admin api_key;
      do rows <- admin_list_pending_reviews; respond_reviews rows
  | POST_admin_reviews_approve review_id =>
      do _ <- require_admin api_key;
      do r <- admin_approve_review review_id;
      ret (ReviewApproved (fst r) (snd r))
  | POST_admin_places payload =>
      do _ <- require_admin api_key;
      do place <- admin_create_place payload; ret (PlaceItem place)
  | POST_admin_events payload =>
      do _ <- require_admin api_key;
      do payload <- parse_EventCreate payload;
      do event <- admin_create_event payload; respond_event rt event
  | POST_admin_gallery_sections payload =>
      do _ <- require_admin api_key;
      do section <- admin_create_gallery_section payload;
      respond_section section
  | POST_admin_gallery_photos payload =>
      do _ <- require_admin api_key;
      do photo <- admin_add_gallery_photo payload;
      ret (PhotoItem (gallery_photo_out photo))
  | GET_admin_events =>
      do _ <- require_admin api_key;
      do rows <- admin_list_events; respond_events rt rows
  | PUT_admin_events event_id payload =>
      do _ <- require_admin api_key;
      do payload <- parse_EventCreate payload;
      do event <- admin_update_event event_id payload; respond_event rt event
  | DELETE_admin_events event_id =>
      do _ <- require_admin api_key;
      do i <- admin_delete_event event_id; ret (Deleted i)
  | PUT_admin_gallery_sections section_id payload =>
      do _ <- require_admin api_key;
      do section <- admin_rename_gallery_section section_id payload;
      respond_section section
  | DELETE_admin_gallery_sections section_id =>
      do _ <- require_admin api_key;
      do i <- admin_delete_gallery_section section_id; ret (Deleted i)
  | DELETE_admin_gallery_photos photo_id =>
      do _ <- require_admin api_key;
      do i <- admin_delete_gallery_photo photo_id; ret (Deleted i)
  | GET_admin_feedback =>
      do _ <- require_admin api_key;
      do rows <- admin_list_feedback; ret (FeedbackList rows)
  | POST_admin_feedback_mark_read feedback_id =>
      do _ <- require_admin api_key;
      do r <- admin_mark_feedback_read feedback_id;
      ret (FeedbackRead (fst r) (snd r))
  end.

Definition serve (rt : Runtime) (api_key : option pystr) (req : Request)
    (w : World) : Result Response * World :=
  run_request (route rt api_key req) w.

(** ** Store predicates used in the statements *)

Definition place_exists (i : Z) (s : Store) : bool :=
  existsb (fun p => bool_decide (Place.id p = i)) (places s).

Definition review_exists (i : Z) (s : Store) : bool :=
  existsb (fun r => bool_decide (Review.id r = i)) (reviews s).

(** Referential integrity of [reviews.place_id]. *)
Definition reviews_reference_places (s : Store) : bool :=
  forallb (fun r => place_exists (Review.place_id r) s) (reviews s).

(** The range of [reviews.rating]. *)
Definition ratings_in_range (s : Store) : bool :=
  forallb (fun r => rating_in_range (Review.rating r)) (reviews s).

(** ** Rows and states named in the statements *)

(** The rows the query of [list_reviews] selects, before ordering. *)
Definition approved_of (place_id : Z) (s : Store) : list Review.t :=
  filter (fun r => Review.place_id r = place_id /\ Review.status r = approved)
         (reviews s).

(** The database after approving [review_id]. *)
Definition approved_store (review_id : Z) (s : Store) : Store :=
  set_reviews (update_by Review.id review_id (Review.with_status approved)) s.

(** The row [create_review] inserts. *)
Definition submitted_review (rt : Runtime) (s : Store) (place_id : Z)
    (author_name : option pystr) (rating : Z) (text : pystr) : Review.t :=
  Review.mk (next_id (map Review.id (reviews s))) place_id author_name rating
            text pending (db_now rt).

(** The database after a review and its photo rows were inserted. *)
Definition store_with_review (s : Store) (row : Review.t)
    (ps : list ReviewPhoto.t) : Store :=
  mkStore (places s) (reviews s ++ [row]) (review_photos s ++ ps) (events s)
          (gallery_sections s) (gallery_photos s) (feedback s).






(** [short_info] has a line feed or a carriage return. *)
Definition has_line_break (v : pystr) : bool :=
  PyStr.contains PyStr.LF v || PyStr.contains PyStr.CR v.

(** The event row [admin_create_event] inserts. *)
Definition created_event (s : Store) (payload : EventCreate) : Event.t :=
  Event.mk (next_id (map Event.id (events s))) (ec_title payload)
           (ec_date payload) (ec_short_info payload) (ec_cover_url payload).

(** The event row [admin_update_event] leaves under [event_id]. *)
Definition updated_event (event_id : Z) (payload : EventCreate) : Event.t :=
  Event.mk event_id (ec_title payload) (ec_date payload)
           (ec_short_info payload) (ec_cover_url payload).

(** ** Navigation *)

Record NavItem := mkNavItem
  { nav_id : pystr; nav_title : pystr; nav_path : pystr;
    nav_is_active : bool }.

(** The [items] list of [get_navigation]. *)
Definition nav_items : list NavItem :=
  [ mkNavItem (py "home") (py "Главная") (py "/") false;
    mkNavItem (py "reviews") (py "Отзывы") (py "#reviews") false;
    mkNavItem (py "events") (py "Мероприятия") (py "#events") false;
    mkNavItem (py "gallery") (py "Галерея") (py "#gallery") false;
    mkNavItem (py "contacts") (py "Контакты") (py "#contacts") false ].

Definition activate (item : NavItem) : NavItem :=
  mkNavItem (nav_id item) (nav_title item) (nav_path item) true.

Definition get_navigation (active : option pystr) : list NavItem :=
  match active with
  | Some a =>
      if PyStr.truthy a
      then map (fun item => if PyStr.eqb (nav_id item) a then activate item
                            else item) nav_items
      else nav_items
  | None => nav_items
  end.

(** ** Well-formed databases and reachable worlds *)

(** Every review references a stored place and has a rating in range. *)
Definition store_ok (s : Store) : Prop :=
  reviews_reference_places s = true /\ ratings_in_range s = true.

(** A computation that takes a well-formed session and database to a
    well-formed session and database. *)
Definition keeps {A} (m : M A) : Prop :=
  forall u, store_ok (session u) -> store_ok (committed u) ->
    store_ok (session (snd (m u))) /\ store_ok (committed (snd (m u))).

(** The worlds the service can be in: it starts on an empty database and
    serves requests one after the other. *)
Inductive reachable : World -> Prop :=
| reachable_empty (fs : list (pystr * pystr)) :
    reachable (mkWorld empty_store fs)
| reachable_serve (rt : Runtime) (api_key : option pystr) (req : Request)
    (w : World) :
    reachable w -> reachable (snd (serve rt api_key req w)).

(** Requests that only read. *)
Definition read_only (req : Request) : bool :=
  match req with
  | GET_places | GET_reviews _ | GET_events | GET_gallery
  | GET_admin_reviews_pending | GET_admin_events | GET_admin_feedback => true
  | _ => false
  end.

(** The rows the query of [admin_list_pending_reviews] selects. *)
Definition pending_of (s : Store) : list Review.t :=
  filter (fun r => Review.status r = pending) (reviews s).

(** A computation that leaves the unit of work as it found it. *)
Definition quiet {A} (m : M A) : Prop := forall u, snd (m u) = u.

Definition section_exists (i : Z) (s : Store) : bool :=
  existsb (fun g => bool_decide (GallerySection.id g = i))
          (gallery_sections s).

(** Referential integrity of [gallery_photos.section_id]. *)
Definition photos_reference_sections (s : Store) : bool :=
  forallb (fun p => section_exists (GalleryPhoto.section_id p) s)
          (gallery_photos s).

(** The database after the section [section_id] and its photos are
    deleted. *)
Definition store_without_section (section_id : Z) (s : Store) : Store :=
  set_gallery_sections (delete_by GallerySection.id section_id)
    (set_gallery_photos (delete_by GalleryPhoto.section_id section_id) s).

(** The feedback row [create_feedback] inserts. *)
Definition submitted_feedback (rt : Runtime) (s : Store)
    (payload : FeedbackCreate) : Feedback.t :=
  Feedback.mk (next_id (map Feedback.id (feedback s))) (fc_name payload)
              (fc_contact payload) (fc_message payload) false (db_now rt).

(** The database after the feedback [feedback_id] is marked read. *)
Definition read_store (feedback_id : Z) (s : Store) : Store :=
  set_feedback (update_by Feedback.id feedback_id (Feedback.with_is_read true))
               s.

Definition feedback_exists (i : Z) (s : Store) : bool :=
  existsb (fun f => bool_decide (Feedback.id f = i)) (feedback s).

Definition event_exists (i : Z) (s : Store) : bool :=
  existsb (fun e => bool_decide (Event.id e = i)) (events s).

(** The photo row [admin_add_gallery_photo] inserts. *)
Definition attached_photo (s : Store) (payload : GalleryPhotoCreate)
    : GalleryPhoto.t :=
  GalleryPhoto.mk (next_id (map GalleryPhoto.id (gallery_photos s)))
                  (gpc_section_id payload) (gpc_url payload).


(** The database after the section [section_id] is renamed. *)
Definition renamed_store (section_id : Z) (name : pystr) (s : Store) : Store :=
  set_gallery_sections
    (update_by GallerySection.id section_id
               (fun _ => GallerySection.mk section_id name)) s.

(** The text parameters of the statements of the JSON routes encode. *)
Definition event_text_ok (payload : EventCreate) : bool :=
  forallb encodable ([ec_title payload; ec_short_info payload]
                     ++ opt_param (ec_cover_url payload)).


Definition feedback_text_ok (payload : FeedbackCreate) : bool :=
  forallb encodable ([fc_name payload] ++ opt_param (fc_contact payload)
                     ++ [fc_message payload]).

(** ** Sample data for the closed examples *)

Module Sample.

Definition rt : Runtime :=
  mkRuntime 1700000000
            (fun k => py "1700000000." ++ PyStr.of_Z (Z.of_nat k))
            (fun _ => [])
            (fun _ => true).

Definition park : Place.t :=
  Place.mk 1 (py "Park") (py "outdoor") (py "56.1") (py "47.2") None.

Definition old_review : Review.t :=
  Review.mk 1 1 (Some (py "Ann")) 5 (py "Nice") approved 1600000000.

Definition new_review : Review.t :=
  Review.mk 2 1 None 3 (py "Fine") pending 1650000000.

Definition winter : GallerySection.t := GallerySection.mk 1 (py "Winter").
Definition winter_again : GallerySection.t :=
  GallerySection.mk 2 (py "Winter").

Definition store : Store :=
  mkStore [park] [old_review; new_review] [] [] [winter; winter_again] [] [].

Definition world : World := mkWorld store [].

Definition photo (name : string) : UploadFile :=
  mkUpload (Some (py name)) (py "bytes").

(** A runtime whose URL validation wants an [http] scheme prefix. *)
Definition strict_rt : Runtime :=
  mkRuntime 1700000000
            (fun k => py "1700000000." ++ PyStr.of_Z (Z.of_nat k))
            (fun _ => [])
            (fun u => PyStr.eqb (take 4 u) (py "http")).

Definition note : Feedback.t :=
  Feedback.mk 1 (py "Bob") None (py "Hello") false 1690000000.

Definition inbox : World :=
  mkWorld (mkStore [] [] [] [] [] [] [note]) [].

End Sample.

(** ** The string literals *)

Example py_cyrillic : py "Общие" = [1054; 1073; 1097; 1080; 1077]%N.
Proof. reflexivity. Qed.

Example str_of_int : PyStr.of_Z 42 = py "42" /\ PyStr.of_Z 0 = py "0".
Proof. split; reflexivity. Qed.

(** ** Facts about the unit of work *)

Lemma run_request_unfold {A} (m : M A) (w : World) :
  run_request m w =
  (fst (m (mkWork (database w) (database w) (media w))),
   mkWorld (committed (snd (m (mkWork (database w) (database w) (media w)))))
           (disk (snd (m (mkWork (database w) (database w) (media w)))))).
Proof.
  unfold run_request.
  destruct (m (mkWork (database w) (database w) (media w))); reflexivity.
Qed.

Lemma world_eta (w : World) : mkWorld (database w) (media w) = w.
Proof. destruct w; reflexivity. Qed.

Lemma require_admin_rejects (api_key : option pystr) (u : Work) :
  api_key <> Some ADMIN_API_KEY ->
  require_admin api_key u =
  (Err (HTTPException 401 (py "Invalid or missing admin key")), u).
Proof.
  intros H. unfold require_admin. rewrite bool_decide_eq_true_2 by exact H.
  reflexivity.
Qed.

Lemma require_admin_accepts (u : Work) :
  require_admin (Some ADMIN_API_KEY) u = (Ok tt, u).
Proof. reflexivity. Qed.

(** ** The admin key guards every admin route *)

(** C1: an admin-only request whose [X-Admin-Key] header is absent or is not
    the admin key fails with the 401 [HTTPException] (the same one in both
    cases), and the database and the media files are as before. *)
Theorem admin_route_requires_key (rt : Runtime) (api_key : option pystr)
    (req : Request) (w : World) :
  admin_only req = true ->
  api_key <> Some ADMIN_API_KEY ->
  serve rt api_key req w =
    (Err (HTTPException 401 (py "Invalid or missing admin key")), w)
  /\ kind_of (HTTPException 401 (py "Invalid or missing admin key"))
     = Unauthorized.
Proof.
  intros Hadmin Hkey. split; [|reflexivity].
  unfold serve. rewrite run_request_unfold.
  destruct req; try discriminate Hadmin;
    unfold route, bind; rewrite require_admin_rejects by exact Hkey;
    simpl; rewrite world_eta; reflexivity.
Qed.

Lemma admin_route_requires_key_witness :
  (serve Sample.rt None (POST_admin_reviews_approve 2) Sample.world =
     (Err (HTTPException 401 (py "Invalid or missing admin key")),
      Sample.world)
   /\ kind_of (HTTPException 401 (py "Invalid or missing admin key"))
      = Unauthorized)
  /\ (serve Sample.rt (Some (py "change-me")) (DELETE_admin_gallery_sections 1)
        Sample.world =
        (Err (HTTPException 401 (py "Invalid or missing admin key")),
         Sample.world)
      /\ kind_of (HTTPException 401 (py "Invalid or missing admin key"))
         = Unauthorized).
Proof.
  split.
  - apply (admin_route_requires_key Sample.rt None
             (POST_admin_reviews_approve 2) Sample.world);
      [reflexivity | discriminate].
  - apply (admin_route_requires_key Sample.rt (Some (py "change-me"))
             (DELETE_admin_gallery_sections 1) Sample.world);
      [reflexivity | vm_compute; discriminate].
Defined.

(** ** Lookups, updates and fresh keys *)

Section Keyed.
Context {A : Type} (key : A -> Z).

Lemma first_by_key (i : Z) (rows : list A) (r : A) :
  first_by key i rows = Some r -> key r = i /\ r ∈ rows.
Proof.
  unfold first_by. intros H. apply find_some in H. destruct H as [Hin Hk].
  apply bool_decide_eq_true_1 in Hk. split; [exact Hk|].
  apply list_elem_of_In; exact Hin.
Qed.

Lemma first_by_none (i : Z) (rows : list A) :
  first_by key i rows = None <->
  existsb (fun r => bool_decide (key r = i)) rows = false.
Proof.
  unfold first_by. induction rows as [|r rows IH]; simpl; [tauto|].
  destruct (bool_decide (key r = i)); simpl; [split; discriminate|exact IH].
Qed.

Lemma first_by_update (i : Z) (f : A -> A) (rows : list A) :
  (forall r, key r = i -> key (f r) = i) ->
  first_by key i (update_by key i f rows)
  = option_map f (first_by key i rows).
Proof.
  intros Hf. unfold first_by, update_by.
  induction rows as [|r rows IH]; simpl; [reflexivity|].
  destruct (bool_decide (key r = i)) eqn:E; simpl.
  - apply bool_decide_eq_true_1 in E.
    rewrite bool_decide_eq_true_2 by (apply Hf; exact E). reflexivity.
  - rewrite E. exact IH.
Qed.

Lemma update_by_idem (i : Z) (f : A -> A) (rows : list A) :
  (forall r, key (f r) = key r) -> (forall r, f (f r) = f r) ->
  update_by key i f (update_by key i f rows) = update_by key i f rows.
Proof.
  intros Hk Hf. unfold update_by. rewrite map_map.
  apply map_ext. intros r.
  destruct (bool_decide (key r = i)) eqn:E.
  - rewrite Hk, E. apply Hf.
  - rewrite E. reflexivity.
Qed.

Lemma update_by_elem (i : Z) (f : A -> A) (rows : list A) (r' : A) :
  r' ∈ update_by key i f rows ->
  exists r, r ∈ rows /\
    r' = if bool_decide (key r = i) then f r else r.
Proof.
  unfold update_by. intros H. apply list_elem_of_fmap in H.
  destruct H as (r & -> & Hr). exists r. split; [exact Hr|reflexivity].
Qed.

Lemma fold_max_ge (i : Z) (rows : list Z) (x : Z) :
  x = i \/ x ∈ rows -> x <= fold_right Z.max i rows.
Proof.
  induction rows as [|y rows IH]; simpl.
  - intros [->|H]; [lia|inversion H].
  - intros [->|H].
    + specialize (IH (or_introl eq_refl)). lia.
    + apply elem_of_cons in H. destruct H as [->|H]; [lia|].
      specialize (IH (or_intror H)). lia.
Qed.

(** The key [next_id] hands out is above every key in use. *)
Lemma next_id_fresh (rows : list A) (r : A) :
  r ∈ rows -> key r < next_id (map key rows).
Proof.
  intros Hr. unfold next_id.
  destruct rows as [|r0 rows]; [inversion Hr|]. simpl.
  assert (key r <= fold_right Z.max (key r0) (map key rows)); [|lia].
  apply fold_max_ge. apply elem_of_cons in Hr.
  destruct Hr as [->|Hr]; [left; reflexivity|right].
  apply list_elem_of_fmap. exists r. split; [reflexivity|exact Hr].
Qed.

(** Looking a freshly inserted row up by its key finds that row. *)
Lemma find_fresh (rows : list A) (row : A) :
  key row = next_id (map key rows) ->
  List.find (fun r => bool_decide (key r = key row)) (rows ++ [row])
  = Some row.
Proof.
  intros Hk.
  assert (Hout : forall l, (forall r, r ∈ l -> key r <> key row) ->
            List.find (fun r => bool_decide (key r = key row)) (l ++ [row])
            = Some row).
  { induction l as [|r l IH]; simpl; intros Hl.
    - rewrite bool_decide_eq_true_2 by reflexivity. reflexivity.
    - rewrite bool_decide_eq_false_2 by (apply Hl; left).
      apply IH. intros r' Hr'. apply Hl. right. exact Hr'. }
  apply Hout. intros r Hr. pose proof (next_id_fresh rows r Hr). lia.
Qed.

End Keyed.

(** ** The driver's refusals *)

Lemma bindable_stored {A} (key : A -> Z) (rows : list A) (r : A) :
  r ∈ rows -> bindable_int (map key rows) (key r) = true.
Proof.
  intros Hr. unfold bindable_int. apply orb_true_iff. right.
  apply existsb_exists. exists (key r). split; [|apply Z.eqb_refl].
  apply in_map. apply list_elem_of_In. exact Hr.
Qed.

Lemma bindable_in_range (column : list Z) (i : Z) :
  sqlite_int_ok i = true -> bindable_int column i = true.
Proof. intros H. unfold bindable_int. rewrite H. reflexivity. Qed.

Lemma bindable_absent {A} (key : A -> Z) (rows : list A) (i : Z) :
  first_by key i rows = None ->
  bindable_int (map key rows) i = sqlite_int_ok i.
Proof.
  intros Hnone. unfold bindable_int.
  assert (Hno : existsb (Z.eqb i) (map key rows) = false).
  { apply not_true_iff_false. intros H. apply existsb_exists in H.
    destruct H as (k & Hin & Hk). apply Z.eqb_eq in Hk. subst k.
    apply in_map_iff in Hin. destruct Hin as (r & Hkey & Hin).
    apply first_by_none in Hnone.
    apply not_true_iff_false in Hnone. apply Hnone.
    apply existsb_exists. exists r. split; [exact Hin|].
    apply bool_decide_eq_true_2. exact Hkey. }
  rewrite Hno, orb_false_r. reflexivity.
Qed.

Lemma bind_int_run (column : Store -> list Z) (i : Z) (u : Work) :
  bind_int column i u =
  if bindable_int (column (session u)) i then (Ok tt, u)
  else (Err InternalServerError, u).
Proof.
  unfold bind_int, bind, query.
  destruct (bindable_int (column (session u)) i); reflexivity.
Qed.

(** A lookup by a request integer: the row when there is one, nothing when
    the integer fits and no row has it, the driver's refusal when it does
    not fit. *)
Lemma select_first_run {A} (table : Store -> list A) (key : A -> Z) (i : Z)
    (u : Work) :
  select_first table key i u =
  match first_by key i (table (session u)) with
  | Some r => (Ok (Some r), u)
  | None => if sqlite_int_ok i then (Ok None, u)
            else (Err InternalServerError, u)
  end.
Proof.
  unfold select_first. unfold bind at 1. rewrite bind_int_run.
  destruct (first_by key i (table (session u))) as [r|] eqn:E.
  - destruct (first_by_key key _ _ _ E) as [Hk Hin]. subst i.
    rewrite bindable_stored by exact Hin.
    unfold query. rewrite E. reflexivity.
  - rewrite (bindable_absent key _ _ E).
    destruct (sqlite_int_ok i); [|reflexivity].
    unfold query. rewrite E. reflexivity.
Qed.

Lemma bind_text_run (params : list pystr) (u : Work) :
  bind_text params u =
  if forallb encodable params then (Ok tt, u)
  else (Err InternalServerError, u).
Proof. unfold bind_text. destruct (forallb encodable params); reflexivity. Qed.

(** ** The public review listing *)

#[global] Instance newer_trans : Transitive newer.
Proof. unfold newer; intros a b c; lia. Qed.

#[global] Instance newer_total : Total newer.
Proof. unfold newer; intros a b; lia. Qed.

Lemma list_reviews_work (place_id : Z) (u : Work) :
  list_reviews place_id u =
  if bindable_int (map Review.place_id (reviews (session u))) place_id
  then (Ok (merge_sort newer (approved_of place_id (session u))), u)
  else (Err InternalServerError, u).
Proof.
  unfold list_reviews. unfold bind at 1. rewrite bind_int_run.
  destruct (bindable_int _ place_id); reflexivity.
Qed.

Lemma list_reviews_run (place_id : Z) (w : World) :
  run_request (list_reviews place_id) w =
  (if bindable_int (map Review.place_id (reviews (database w))) place_id
   then Ok (merge_sort newer (approved_of place_id (database w)))
   else Err InternalServerError, w).
Proof.
  destruct w as [db md]. unfold run_request. rewrite list_reviews_work.
  cbn [session database media].
  destruct (bindable_int _ place_id); reflexivity.
Qed.

Lemma approved_of_spec (place_id : Z) (s : Store) (r : Review.t) :
  r ∈ approved_of place_id s <->
  r ∈ reviews s /\ Review.place_id r = place_id /\ Review.status r = approved.
Proof. unfold approved_of. rewrite list_elem_of_filter. tauto. Qed.

Lemma serve_list_reviews (rt : Runtime) (api_key : option pystr)
    (place_id : Z) (w : World) :
  serve rt api_key (GET_reviews place_id) w =
  (if bindable_int (map Review.place_id (reviews (database w))) place_id
   then
     if forallb (fun r => rating_in_range (Review.rating r))
                (merge_sort newer (approved_of place_id (database w)))
     then Ok (ReviewList
                (map (review_out (database w))
                     (merge_sort newer (approved_of place_id (database w)))))
     else Err InternalServerError
   else Err InternalServerError, w).
Proof.
  destruct w as [db md]. cbn [database media].
  unfold serve, run_request, route. unfold bind at 1.
  rewrite list_reviews_work. cbn [session].
  destruct (bindable_int _ place_id); [|reflexivity].
  unfold respond_reviews.
  destruct (forallb _ _); reflexivity.
Qed.


Lemma list_reviews_large_place_id_fails :
  serve Sample.rt None (GET_reviews (2 ^ 63)) Sample.world
  = (Err InternalServerError, Sample.world)
  /\ run_request (list_reviews (2 ^ 63)) Sample.world
     = (Err InternalServerError, Sample.world).
Proof. split; vm_compute; reflexivity. Qed.

(** C2 (amended): for every place identifier that fits a signed 64-bit
    integer and every database, [list_reviews] succeeds without touching
    anything, and its rows are exactly the reviews of that place with
    status approved (same rows, same multiplicity), newest first; no row
    has status pending.  The response is these rows through [ReviewOut],
    unless a stored rating is outside the declared range. *)
Theorem list_reviews_exactly_approved (rt : Runtime)
    (api_key : option pystr) (place_id : Z) (w : World) :
  sqlite_int_ok place_id = true ->
  exists rows : list Review.t,
    run_request (list_reviews place_id) w = (Ok rows, w)
    /\ rows ≡ₚ approved_of place_id (database w)
    /\ (forall r, r ∈ rows <->
          r ∈ reviews (database w) /\ Review.place_id r = place_id
          /\ Review.status r = approved)
    /\ StronglySorted newer rows
    /\ Forall (fun r => Review.status r <> pending) rows
    /\ serve rt api_key (GET_reviews place_id) w =
       (if forallb (fun r => rating_in_range (Review.rating r)) rows
        then Ok (ReviewList (map (review_out (database w)) rows))
        else Err InternalServerError, w).
Proof.
  intros Hfit.
  pose proof (bindable_in_range
                (map Review.place_id (reviews (database w))) place_id Hfit)
    as Hbind.
  exists (merge_sort newer (approved_of place_id (database w))).
  assert (Hperm : merge_sort newer (approved_of place_id (database w))
                  ≡ₚ approved_of place_id (database w))
    by apply merge_sort_Permutation.
  split; [rewrite list_reviews_run, Hbind; reflexivity|].
  split; [exact Hperm|].
  split.
  { intros r. rewrite Hperm. apply approved_of_spec. }
  split; [apply StronglySorted_merge_sort; apply _|].
  split.
  { apply Forall_forall. intros r Hr.
    rewrite Hperm in Hr. apply approved_of_spec in Hr.
    destruct Hr as (_ & _ & Hst). rewrite Hst. discriminate. }
  rewrite serve_list_reviews, Hbind. reflexivity.
Qed.

Lemma list_reviews_exactly_approved_witness :
  exists rows : list Review.t,
    run_request (list_reviews 1) Sample.world = (Ok rows, Sample.world)
    /\ rows ≡ₚ approved_of 1 Sample.store
    /\ StronglySorted newer rows
    /\ Forall (fun r => Review.status r <> pending) rows.
Proof.
  destruct (list_reviews_exactly_approved Sample.rt None 1 Sample.world
              eq_refl)
    as (rows & Hrun & Hperm & _ & Hsorted & Hnone & _).
  exists rows. repeat split; assumption.
Defined.

Example list_reviews_sample :
  serve Sample.rt None (GET_reviews 1) Sample.world =
  (Ok (ReviewList [review_out Sample.store Sample.old_review]), Sample.world).
Proof. reflexivity. Qed.

Lemma place_exists_false (i : Z) (s : Store) (p : Place.t) :
  place_exists i s = false -> p ∈ places s -> Place.id p <> i.
Proof.
  unfold place_exists. intros H Hp Heq.
  apply not_true_iff_false in H. apply H.
  apply existsb_exists. exists p. split.
  - apply list_elem_of_In; exact Hp.
  - apply bool_decide_eq_true_2; exact Heq.
Qed.

Lemma approved_of_unknown_place (place_id : Z) (s : Store) :
  reviews_reference_places s = true ->
  place_exists place_id s = false ->
  approved_of place_id s = [].
Proof.
  intros Hfk Hno.
  destruct (approved_of place_id s) as [|r rows] eqn:E; [reflexivity|].
  assert (Hr : r ∈ approved_of place_id s) by (rewrite E; left).
  apply approved_of_spec in Hr. destruct Hr as (Hin & Hpid & _).
  unfold reviews_reference_places in Hfk.
  rewrite forallb_forall in Hfk.
  specialize (Hfk r (proj1 (list_elem_of_In _ _) Hin)).
  rewrite Hpid, Hno in Hfk. discriminate.
Qed.

Lemma unknown_large_place_id_is_server_error :
  reviews_reference_places empty_store = true
  /\ place_exists (2 ^ 63) empty_store = false
  /\ serve Sample.rt None (GET_reviews (2 ^ 63)) (mkWorld empty_store [])
     = (Err InternalServerError, mkWorld empty_store []).
Proof. split; [|split]; vm_compute; reflexivity. Qed.

(** C10 (amended): when every stored review references a stored place, a
    place identifier that fits a signed 64-bit integer and references no
    place gets the empty list from the public review listing, not a
    NotFound error; nothing changes. *)
Theorem list_reviews_unknown_place_empty (rt : Runtime)
    (api_key : option pystr) (place_id : Z) (w : World) :
  sqlite_int_ok place_id = true ->
  reviews_reference_places (database w) = true ->
  place_exists place_id (database w) = false ->
  run_request (list_reviews place_id) w = (Ok [], w)
  /\ serve rt api_key (GET_reviews place_id) w = (Ok (ReviewList []), w).
Proof.
  intros Hfit Hfk Hno.
  pose proof (approved_of_unknown_place _ _ Hfk Hno) as Hnil.
  pose proof (bindable_in_range
                (map Review.place_id (reviews (database w))) place_id Hfit)
    as Hbind.
  split.
  - rewrite list_reviews_run, Hbind, Hnil. reflexivity.
  - rewrite serve_list_reviews, Hbind, Hnil. reflexivity.
Qed.

Lemma list_reviews_unknown_place_empty_witness :
  run_request (list_reviews 7) Sample.world = (Ok [], Sample.world)
  /\ serve Sample.rt None (GET_reviews 7) Sample.world
     = (Ok (ReviewList []), Sample.world).
Proof.
  apply (list_reviews_unknown_place_empty Sample.rt None 7 Sample.world);
    reflexivity.
Defined.

(** ** Approving a review *)

Lemma with_status_id st r : Review.id (Review.with_status st r) = Review.id r.
Proof. reflexivity. Qed.

Lemma with_status_idem st r :
  Review.with_status st (Review.with_status st r) = Review.with_status st r.
Proof. reflexivity. Qed.

Lemma admin_approve_review_known (review_id : Z) (u : Work) :
  review_exists review_id (session u) = true ->
  admin_approve_review review_id u =
  (Ok (review_id, approved),
   mkWork (approved_store review_id (session u))
          (approved_store review_id (session u)) (disk u)).
Proof.
  intros Hex. unfold admin_approve_review. unfold bind at 1.
  rewrite select_first_run.
  destruct (first_by Review.id review_id (reviews (session u))) as [r|] eqn:E.
  2:{ apply first_by_none in E. unfold review_exists in Hex.
      rewrite E in Hex. discriminate. }
  destruct (first_by_key _ _ _ _ E) as [Hid _].
  unfold bind, execute, commit, query. simpl.
  unfold refresh, bind, query. simpl.
  fold (first_by Review.id (Review.id r)
          (update_by Review.id (Review.id r) (Review.with_status approved)
             (reviews (session u)))).
  rewrite first_by_update by (intros r0 Hr0; exact Hr0).
  rewrite Hid, E. simpl. rewrite Hid. reflexivity.
Qed.

Lemma admin_approve_review_unknown (review_id : Z) (u : Work) :
  review_exists review_id (session u) = false ->
  admin_approve_review review_id u =
  (if sqlite_int_ok review_id
   then Err (HTTPException 404 (py "Отзыв не найден"))
   else Err InternalServerError, u).
Proof.
  intros Hno. unfold admin_approve_review. unfold bind at 1.
  rewrite select_first_run.
  apply first_by_none in Hno. rewrite Hno.
  destruct (sqlite_int_ok review_id); reflexivity.
Qed.

Lemma review_exists_approved_store (i j : Z) (s : Store) :
  review_exists i (approved_store j s) = review_exists i s.
Proof.
  unfold review_exists, approved_store, update_by. simpl.
  induction (reviews s) as [|r rows IH]; simpl; [reflexivity|].
  rewrite IH. destruct (bool_decide (Review.id r = j)); reflexivity.
Qed.

Lemma approved_store_idem (i : Z) (s : Store) :
  approved_store i (approved_store i s) = approved_store i s.
Proof.
  unfold approved_store, set_reviews. simpl.
  rewrite update_by_idem; [reflexivity|apply with_status_id|apply with_status_idem].
Qed.

Lemma serve_approve (rt : Runtime) (review_id : Z) (w : World) :
  serve rt (Some ADMIN_API_KEY) (POST_admin_reviews_approve review_id) w =
  (match fst (admin_approve_review review_id
                (mkWork (database w) (database w) (media w))) with
   | Ok r => Ok (ReviewApproved (fst r) (snd r))
   | Err e => Err e
   end,
   mkWorld
     (committed (snd (admin_approve_review review_id
                        (mkWork (database w) (database w) (media w)))))
     (disk (snd (admin_approve_review review_id
                    (mkWork (database w) (database w) (media w)))))).
Proof.
  unfold serve. rewrite run_request_unfold. unfold route, bind.
  rewrite require_admin_accepts.
  destruct (admin_approve_review _ _) as [[r|e] u']; reflexivity.
Qed.

Lemma approve_large_review_id_is_server_error :
  review_exists (2 ^ 63) (database Sample.world) = false
  /\ serve Sample.rt (Some ADMIN_API_KEY)
        (POST_admin_reviews_approve (2 ^ 63)) Sample.world
     = (Err InternalServerError, Sample.world)
  /\ kind_of InternalServerError <> NotFound.
Proof.
  split; [|split]; [vm_compute; reflexivity|vm_compute; reflexivity|].
  vm_compute. discriminate.
Qed.

(** C3 (amended): with the admin key, approving a known review identifier
    succeeds with status approved, and the only change is that the review
    with that identifier has status approved; doing it again succeeds the
    same way and changes nothing more.  An identifier that fits a signed
    64-bit integer and is the identifier of no review fails with the 404
    [HTTPException] and nothing changes. *)
Theorem approve_review_outcome (rt : Runtime) (review_id : Z) (w : World) :
  let approve := serve rt (Some ADMIN_API_KEY)
                       (POST_admin_reviews_approve review_id) in
  (review_exists review_id (database w) = true ->
     approve w = (Ok (ReviewApproved review_id approved),
                  mkWorld (approved_store review_id (database w)) (media w))
     /\ (forall r, r ∈ reviews (database (snd (approve w))) ->
           Review.id r = review_id -> Review.status r = approved)
     /\ (forall r, r ∈ reviews (database (snd (approve w))) ->
           Review.id r <> review_id -> r ∈ reviews (database w))
     /\ approve (snd (approve w)) = approve w)
  /\ (review_exists review_id (database w) = false ->
      sqlite_int_ok review_id = true ->
        approve w = (Err (HTTPException 404 (py "Отзыв не найден")), w)
        /\ kind_of (HTTPException 404 (py "Отзыв не найден")) = NotFound).
Proof.
  intros approve. subst approve. split.
  - intros Hex.
    assert (H1 : serve rt (Some ADMIN_API_KEY)
                   (POST_admin_reviews_approve review_id) w
                 = (Ok (ReviewApproved review_id approved),
                    mkWorld (approved_store review_id (database w)) (media w))).
    { rewrite serve_approve, admin_approve_review_known by exact Hex.
      reflexivity. }
    rewrite H1. simpl. split; [reflexivity|]. split; [|split].
    + intros r Hr Hid. apply update_by_elem in Hr.
      destruct Hr as (r0 & _ & ->).
      destruct (bool_decide (Review.id r0 = review_id)) eqn:E; [reflexivity|].
      apply bool_decide_eq_false_1 in E. contradiction.
    + intros r Hr Hid. apply update_by_elem in Hr.
      destruct Hr as (r0 & Hr0 & ->).
      destruct (bool_decide (Review.id r0 = review_id)) eqn:E; [|exact Hr0].
      apply bool_decide_eq_true_1 in E. simpl in Hid. contradiction.
    + rewrite serve_approve, admin_approve_review_known; simpl.
      * rewrite approved_store_idem. reflexivity.
      * rewrite review_exists_approved_store. exact Hex.
  - intros Hno Hfit. split; [|reflexivity].
    rewrite serve_approve, admin_approve_review_unknown by exact Hno.
    rewrite Hfit. simpl. rewrite world_eta. reflexivity.
Qed.

Lemma approve_review_outcome_witness :
  serve Sample.rt (Some ADMIN_API_KEY) (POST_admin_reviews_approve 2)
        Sample.world
  = (Ok (ReviewApproved 2 approved),
     mkWorld (approved_store 2 Sample.store) [])
  /\ serve Sample.rt (Some ADMIN_API_KEY) (POST_admin_reviews_approve 9)
           Sample.world
     = (Err (HTTPException 404 (py "Отзыв не найден")), Sample.world).
Proof.
  split.
  - apply (proj1 (approve_review_outcome Sample.rt 2 Sample.world)).
    reflexivity.
  - apply (proj2 (approve_review_outcome Sample.rt 9 Sample.world));
      reflexivity.
Defined.

(** ** Submitting a review *)

Lemma save_review_photos_run (rt : Runtime) (review_id : Z)
    (file_list : list UploadFile) :
  forall (k : nat) (u : Work),
  exists (ps : list ReviewPhoto.t) (fs : list (pystr * pystr)),
    save_review_photos rt review_id k file_list u =
      (Ok tt,
       mkWork (committed u)
              (set_review_photos (fun t => t ++ ps) (session u))
              (disk u ++ fs))
    /\ length ps = length file_list
    /\ length fs = length file_list
    /\ Forall (fun p => ReviewPhoto.review_id p = review_id) ps.
Proof.
  induction file_list as [|uploaded rest IH]; intros k u.
  - exists [], []. simpl. unfold ret, set_review_photos.
    rewrite !app_nil_r. destruct u as [c [] f]; simpl.
    repeat split; constructor.
  - simpl. unfold bind at 1. unfold write_bytes at 1.
    unfold bind at 1. unfold add_review_photo at 1.
    unfold bind at 1. unfold query at 1. unfold bind at 1.
    unfold execute at 1. unfold ret at 1. cbv beta iota.
    match goal with
    | |- context [save_review_photos rt review_id (S k) rest ?u1] =>
        destruct (IH (S k) u1) as (ps & fs & Hrun & Hps & Hfs & Hall);
        rewrite Hrun
    end.
    eexists (_ :: ps), (_ :: fs). cbn [committed session disk].
    split; [|split; [|split]].
    + unfold set_review_photos. cbn [places reviews review_photos events
        gallery_sections gallery_photos feedback].
      rewrite <- !app_assoc. reflexivity.
    + simpl. rewrite Hps. reflexivity.
    + simpl. rewrite Hfs. reflexivity.
    + constructor; [reflexivity|exact Hall].
Qed.

Lemma first_by_place (i : Z) (s : Store) :
  match first_by Place.id i (places s) with
  | Some _ => place_exists i s = true
  | None => place_exists i s = false
  end.
Proof.
  destruct (first_by Place.id i (places s)) as [p|] eqn:E.
  - unfold place_exists. apply existsb_exists. exists p.
    apply find_some in E. exact E.
  - apply first_by_none in E. exact E.
Qed.

(** Every outcome of [POST /reviews], in the order the checks are made. *)
Lemma route_create_review (rt : Runtime) (api_key : option pystr)
    (place_id : Z) (author_name : option pystr) (rating : Z) (text : pystr)
    (files : option (list UploadFile)) (u : Work) :
  let row := submitted_review rt (session u) place_id
                              (form_author_name author_name) rating text in
  exists (ps : list ReviewPhoto.t) (fs : list (pystr * pystr)),
    length ps = length (default [] files)
    /\ length fs = length (default [] files)
    /\ Forall (fun p => ReviewPhoto.review_id p = Review.id row) ps
    /\ route rt api_key (POST_reviews place_id author_name rating text files) u
       = if negb (rating_in_range rating) || negb (PyStr.truthy text)
         then (Err RequestValidationError, u)
         else if negb (place_exists place_id (session u))
         then (if sqlite_int_ok place_id
               then Err (HTTPException 404 (py "Локация не найдена"))
               else Err InternalServerError, u)
         else if (5 <? length (default [] files))%nat
         then (Err (HTTPException 400
                      (py "Можно загрузить не более 5 изображений")), u)
         else (Ok (ReviewCreated (Review.id row) pending),
               mkWork (store_with_review (session u) row ps)
                      (store_with_review (session u) row ps)
                      (disk u ++ fs)).
Proof.
  intros row.
  set (u1 := mkWork (committed u)
                    (set_reviews (fun t => t ++ [row]) (session u))
                    (disk u)).
  destruct (save_review_photos_run rt (Review.id row) (default [] files) 0 u1)
    as (ps & fs & Hrun & Hps & Hfs & Hall).
  exists ps, fs. split; [exact Hps|]. split; [exact Hfs|].
  split; [exact Hall|].
  subst u1 row. unfold submitted_review in *.
  unfold route.
  unfold bind at 1. unfold parse_review_form.
  destruct (rating_in_range rating); simpl; [|reflexivity].
  destruct (PyStr.truthy text); simpl; [|reflexivity].
  unfold bind at 1. unfold create_review. unfold bind at 1.
  rewrite select_first_run.
  pose proof (first_by_place place_id (session u)) as Hplace.
  destruct (first_by Place.id place_id (places (session u))) as [p|];
    rewrite Hplace; simpl;
    [|destruct (sqlite_int_ok place_id); reflexivity].
  destruct (5 <? length (default [] files))%nat; simpl; [reflexivity|].
  unfold bind at 1. unfold add_review. unfold bind at 1. unfold query at 1.
  unfold bind at 1. unfold execute at 1. unfold ret at 1.
  unfold bind at 1. rewrite Hrun.
  unfold bind at 1. unfold commit at 1.
  unfold bind at 1. unfold refresh. unfold bind at 1. unfold query at 1.
  cbn [session committed disk reviews set_review_photos set_reviews].
  rewrite (find_fresh Review.id (reviews (session u))) by reflexivity.
  reflexivity.
Qed.

Lemma serve_create_review (rt : Runtime) (api_key : option pystr)
    (place_id : Z) (author_name : option pystr) (rating : Z) (text : pystr)
    (files : option (list UploadFile)) (w : World) :
  let row := submitted_review rt (database w) place_id
                              (form_author_name author_name) rating text in
  exists (ps : list ReviewPhoto.t) (fs : list (pystr * pystr)),
    length ps = length (default [] files)
    /\ length fs = length (default [] files)
    /\ Forall (fun p => ReviewPhoto.review_id p = Review.id row) ps
    /\ serve rt api_key (POST_reviews place_id author_name rating text files) w
       = if negb (rating_in_range rating) || negb (PyStr.truthy text)
         then (Err RequestValidationError, w)
         else if negb (place_exists place_id (database w))
         then (if sqlite_int_ok place_id
               then Err (HTTPException 404 (py "Локация не найдена"))
               else Err InternalServerError, w)
         else if (5 <? length (default [] files))%nat
         then (Err (HTTPException 400
                      (py "Можно загрузить не более 5 изображений")), w)
         else (Ok (ReviewCreated (Review.id row) pending),
               mkWorld (store_with_review (database w) row ps)
                       (media w ++ fs)).
Proof.
  intros row.
  destruct (route_create_review rt api_key place_id author_name rating text
              files (mkWork (database w) (database w) (media w)))
    as (ps & fs & Hps & Hfs & Hall & Hrun).
  exists ps, fs. split; [exact Hps|]. split; [exact Hfs|].
  split; [exact Hall|].
  unfold serve, run_request. rewrite Hrun. cbn [session disk].
  fold row.
  destruct (negb (rating_in_range rating) || negb (PyStr.truthy text));
    [cbn [committed disk]; rewrite world_eta; reflexivity|].
  destruct (negb (place_exists place_id (database w)));
    [cbn [committed disk]; rewrite world_eta; reflexivity|].
  destruct (5 <? length (default [] files))%nat;
    [cbn [committed disk]; rewrite world_eta; reflexivity|].
  reflexivity.
Qed.

Lemma truthy_nonempty (v : pystr) : PyStr.truthy v = true <-> v <> [].
Proof. destruct v; simpl; split; congruence. Qed.


(** C4: whenever a submission succeeds, exactly one review row was added,
    the response names that row, and its status is pending; and whatever
    the outcome of a submission, every review it leaves in the database was
    either there before or has status pending. *)
Theorem submitted_review_is_pending (rt : Runtime) (api_key : option pystr)
    (place_id : Z) (author_name : option pystr) (rating : Z) (text : pystr)
    (uploads : option (list UploadFile)) (w : World) :
  let out := serve rt api_key
               (POST_reviews place_id author_name rating text uploads) w in
  (forall resp, fst out = Ok resp ->
     exists row,
       resp = ReviewCreated (Review.id row) pending
       /\ Review.status row = pending
       /\ Review.place_id row = place_id
       /\ reviews (database (snd out)) = reviews (database w) ++ [row])
  /\ (forall r, r ∈ reviews (database (snd out)) ->
        r ∈ reviews (database w) \/ Review.status r = pending).
Proof.
  intros out. subst out.
  destruct (serve_create_review rt api_key place_id author_name rating text
              uploads w) as (ps & fs & _ & _ & _ & Hrun).
  rewrite Hrun. clear Hrun.
  destruct (negb (rating_in_range rating) || negb (PyStr.truthy text));
    [split; [discriminate|simpl; tauto]|].
  destruct (negb (place_exists place_id (database w)));
    [destruct (sqlite_int_ok place_id);
       (split; [discriminate|simpl; tauto])|].
  destruct (5 <? length (default [] uploads))%nat;
    [split; [discriminate|simpl; tauto]|].
  split.
  - intros resp [= <-].
    exists (submitted_review rt (database w) place_id
              (form_author_name author_name) rating text).
    repeat split.
  - simpl. intros r Hr. apply elem_of_app in Hr. destruct Hr as [Hr|Hr];
      [left; exact Hr|right].
    apply list_elem_of_singleton in Hr. subst r. reflexivity.
Qed.

Lemma submitted_review_is_pending_witness :
  exists row,
    ReviewCreated 3 pending = ReviewCreated (Review.id row) pending
    /\ Review.status row = pending
    /\ Review.place_id row = 1
    /\ reviews (database (snd (serve Sample.rt None
          (POST_reviews 1 None 4 (py "Great spot")
             (Some [Sample.photo "a.png"; Sample.photo "b.png"]))
          Sample.world)))
       = reviews (database Sample.world) ++ [row].
Proof.
  apply (proj1 (submitted_review_is_pending Sample.rt None 1 None 4
                  (py "Great spot")
                  (Some [Sample.photo "a.png"; Sample.photo "b.png"])
                  Sample.world)).
  reflexivity.
Defined.



Lemma six_photos_for_unknown_place_is_not_found :
  serve Sample.rt None
    (POST_reviews 7 None 4 (py "Six")
       (Some (repeat (Sample.photo "p.jpg") 6))) Sample.world
  = (Err (HTTPException 404 (py "Локация не найдена")), Sample.world)
  /\ kind_of (HTTPException 404 (py "Локация не найдена")) = NotFound
  /\ NotFound <> ValidationError.
Proof.
  split; [vm_compute; reflexivity|]. split; [reflexivity|discriminate].
Qed.

(** C6 (amended): a submission with more than five photos fails and changes
    nothing: no review row, no photo row, no file.  When the place exists
    the failure is a validation error: the 400 [HTTPException] of the
    handler when the form itself is valid. *)
Theorem too_many_photos_rejected (rt : Runtime) (api_key : option pystr)
    (place_id : Z) (author_name : option pystr) (rating : Z) (text : pystr)
    (uploads : option (list UploadFile)) (w : World) :
  (5 < length (default [] uploads))%nat ->
  exists e,
    serve rt api_key (POST_reviews place_id author_name rating text uploads) w
    = (Err e, w)
    /\ (place_exists place_id (database w) = true ->
        kind_of e = ValidationError
        /\ (rating_in_range rating = true -> text <> [] ->
            e = HTTPException 400
                  (py "Можно загрузить не более 5 изображений"))).
Proof.
  intros Hlen.
  destruct (serve_create_review rt api_key place_id author_name rating text
              uploads w) as (ps & fs & _ & _ & _ & Hrun).
  rewrite Hrun. clear Hrun.
  apply Nat.ltb_lt in Hlen. rewrite Hlen.
  destruct (rating_in_range rating) eqn:Er; simpl.
  2:{ eexists; split; [reflexivity|]. intros _. split; [reflexivity|].
      intros H; discriminate. }
  destruct (PyStr.truthy text) eqn:Et; simpl.
  2:{ eexists; split; [reflexivity|]. intros _. split; [reflexivity|].
      intros _ H. apply truthy_nonempty in H. congruence. }
  destruct (place_exists place_id (database w)); simpl.
  - eexists; split; [reflexivity|]. intros _. split; reflexivity.
  - destruct (sqlite_int_ok place_id);
      (eexists; split; [reflexivity|]; intros H; discriminate).
Qed.

Lemma too_many_photos_rejected_witness :
  serve Sample.rt None
    (POST_reviews 1 None 4 (py "Six")
       (Some (repeat (Sample.photo "p.jpg") 6))) Sample.world
  = (Err (HTTPException 400 (py "Можно загрузить не более 5 изображений")),
     Sample.world)
  /\ kind_of (HTTPException 400
                (py "Можно загрузить не более 5 изображений"))
     = ValidationError.
Proof.
  destruct (too_many_photos_rejected Sample.rt None 1 None 4 (py "Six")
              (Some (repeat (Sample.photo "p.jpg") 6)) Sample.world)
    as (e & Hrun & Hkind); [simpl; lia|].
  destruct (Hkind eq_refl) as [Hk He].
  rewrite <- (He eq_refl ltac:(discriminate)).
  split; [exact Hrun|exact Hk].
Defined.

(** ** Uploading a gallery photo *)









Example upload_new_section_sample :
  gallery_sections (database (snd (serve Sample.rt None
    (POST_gallery_upload (Sample.photo "sun.png") (Some (py "Summer")))
    Sample.world)))
  = [Sample.winter; Sample.winter_again; GallerySection.mk 3 (py "Summer")].
Proof. reflexivity. Qed.

(** ** The default section name *)

Lemma default_section_name_not_general :
  form_section_name None <> py "general"
  /\ fst (serve Sample.rt None
            (POST_gallery_upload (Sample.photo "a.png") None)
            (mkWorld empty_store []))
     = Ok (PhotoUploaded 1
             (py "/static/gallery_photos/gallery_1_1700000000.0.jpg")
             1 (py "Общие"))
  /\ py "Общие" <> py "general".
Proof.
  split; [|split].
  - vm_compute. discriminate.
  - vm_compute. reflexivity.
  - vm_compute. discriminate.
Qed.

(** C9 (amended): an upload without a section name goes to the section
    named "Общие": the handler runs exactly as if that name had been
    sent. *)
Theorem upload_default_section_name (rt : Runtime) (api_key : option pystr)
    (file : UploadFile) (w : World) :
  form_section_name None = py "Общие"
  /\ route rt api_key (POST_gallery_upload file None)
     = route rt api_key (POST_gallery_upload file (Some (py "Общие")))
  /\ serve rt api_key (POST_gallery_upload file None) w
     = serve rt api_key (POST_gallery_upload file (Some (py "Общие"))) w.
Proof.
  split; [reflexivity|]. split; reflexivity.
Qed.

(** ** The single-line rule of [Event.short_info] *)

Lemma parse_EventCreate_run (payload : EventCreate) (u : Work) :
  parse_EventCreate payload u =
  if (255 <? length (ec_short_info payload))%nat
     || has_line_break (ec_short_info payload)
  then (Err RequestValidationError, u)
  else (Ok payload, u).
Proof.
  unfold parse_EventCreate, validate_short_info, has_line_break.
  destruct (255 <? length (ec_short_info payload))%nat eqn:E.
  - apply Nat.ltb_lt in E.
    rewrite bool_decide_eq_true_2 by lia. reflexivity.
  - apply Nat.ltb_ge in E.
    rewrite bool_decide_eq_false_2 by lia. simpl.
    destruct (PyStr.contains PyStr.LF (ec_short_info payload)
              || PyStr.contains PyStr.CR (ec_short_info payload));
      reflexivity.
Qed.

Lemma short_info_without_line_break_rejected :
  has_line_break (repeat 97%N 256) = false
  /\ serve Sample.rt (Some ADMIN_API_KEY)
       (POST_admin_events
          (mkEventCreate (py "Fair") 739000 (repeat 97%N 256) None))
       Sample.world
     = (Err RequestValidationError, Sample.world)
  /\ serve Sample.rt (Some ADMIN_API_KEY)
       (PUT_admin_events 1
          (mkEventCreate (py "Fair") 739000 (repeat 97%N 256) None))
       Sample.world
     = (Err RequestValidationError, Sample.world).
Proof. split; [|split]; vm_compute; reflexivity. Qed.

Lemma admin_create_event_run (payload : EventCreate) (u : Work) :
  admin_create_event payload u =
  if event_text_ok payload
  then
    let e := created_event (session u) payload in
    let s' := set_events (fun t => t ++ [e]) (session u) in
    (Ok e, mkWork s' s' (disk u))
  else (Err InternalServerError, u).
Proof.
  unfold admin_create_event. unfold bind at 1. rewrite bind_text_run.
  fold (event_text_ok payload).
  destruct (event_text_ok payload); [|reflexivity].
  unfold bind at 1. unfold add_event.
  unfold bind at 1. unfold query at 1. unfold bind at 1.
  unfold execute at 1. unfold ret at 1.
  unfold bind at 1. unfold commit at 1.
  unfold refresh. unfold bind at 1. unfold query at 1.
  cbn [session committed disk events set_events].
  rewrite (find_fresh Event.id (events (session u))) by reflexivity.
  reflexivity.
Qed.

Lemma admin_update_event_run (event_id : Z) (payload : EventCreate)
    (u : Work) :
  admin_update_event event_id payload u =
  match first_by Event.id event_id (events (session u)) with
  | Some _ =>
      if event_text_ok payload
      then
        let s' := set_events
                    (update_by Event.id event_id
                               (fun _ => updated_event event_id payload))
                    (session u) in
        (Ok (updated_event event_id payload), mkWork s' s' (disk u))
      else (Err InternalServerError, u)
  | None =>
      (if sqlite_int_ok event_id
       then Err (HTTPException 404 (py "Мероприятие не найдено"))
       else Err InternalServerError, u)
  end.
Proof.
  unfold admin_update_event. unfold bind at 1. rewrite select_first_run.
  destruct (first_by Event.id event_id (events (session u))) as [e|] eqn:E;
    [|destruct (sqlite_int_ok event_id); reflexivity].
  destruct (first_by_key _ _ _ _ E) as [Hid _].
  cbv zeta. unfold bind at 1. rewrite bind_text_run.
  fold (event_text_ok payload).
  destruct (event_text_ok payload); [|reflexivity].
  unfold bind at 1. unfold execute at 1.
  unfold bind at 1. unfold commit at 1.
  unfold refresh. unfold bind at 1. unfold query at 1.
  cbn [session committed disk events set_events Event.id].
  rewrite Hid. fold (updated_event event_id payload).
  fold (first_by Event.id event_id
          (update_by Event.id event_id
             (fun _ => updated_event event_id payload) (events (session u)))).
  rewrite first_by_update by reflexivity. rewrite E. reflexivity.
Qed.

Lemma serve_create_event (rt : Runtime) (payload : EventCreate) (w : World) :
  serve rt (Some ADMIN_API_KEY) (POST_admin_events payload) w =
  if (255 <? length (ec_short_info payload))%nat
     || has_line_break (ec_short_info payload)
  then (Err RequestValidationError, w)
  else if event_text_ok payload
  then
    let e := created_event (database w) payload in
    (if event_out_ok rt e then Ok (EventItem e) else Err InternalServerError,
     mkWorld (set_events (fun t => t ++ [e]) (database w)) (media w))
  else (Err InternalServerError, w).
Proof.
  destruct w as [db md]. cbn [database media].
  unfold serve, run_request, route.
  unfold bind at 1. rewrite require_admin_accepts.
  unfold bind at 1. rewrite parse_EventCreate_run.
  destruct ((255 <? length (ec_short_info payload))%nat
            || has_line_break (ec_short_info payload)); [reflexivity|].
  unfold bind at 1. rewrite admin_create_event_run.
  destruct (event_text_ok payload); [|reflexivity].
  cbv zeta. cbn [session database media]. unfold respond_event.
  destruct (event_out_ok rt (created_event db payload)); reflexivity.
Qed.

Lemma serve_update_event (rt : Runtime) (event_id : Z) (payload : EventCreate)
    (w : World) :
  serve rt (Some ADMIN_API_KEY) (PUT_admin_events event_id payload) w =
  if (255 <? length (ec_short_info payload))%nat
     || has_line_break (ec_short_info payload)
  then (Err RequestValidationError, w)
  else
    match first_by Event.id event_id (events (database w)) with
    | Some _ =>
        if event_text_ok payload
        then
          let e := updated_event event_id payload in
          (if event_out_ok rt e then Ok (EventItem e)
           else Err InternalServerError,
           mkWorld (set_events (update_by Event.id event_id (fun _ => e))
                               (database w))
                   (media w))
        else (Err InternalServerError, w)
    | None =>
        (if sqlite_int_ok event_id
         then Err (HTTPException 404 (py "Мероприятие не найдено"))
         else Err InternalServerError, w)
    end.
Proof.
  destruct w as [db md]. cbn [database media].
  unfold serve, run_request, route.
  unfold bind at 1. rewrite require_admin_accepts.
  unfold bind at 1. rewrite parse_EventCreate_run.
  destruct ((255 <? length (ec_short_info payload))%nat
            || has_line_break (ec_short_info payload)); [reflexivity|].
  unfold bind at 1. rewrite admin_update_event_run.
  cbn [session database media].
  destruct (first_by Event.id event_id (events db));
    [|destruct (sqlite_int_ok event_id); reflexivity].
  destruct (event_text_ok payload); [|reflexivity].
  cbv zeta. unfold respond_event.
  destruct (event_out_ok rt (updated_event event_id payload)); reflexivity.
Qed.

(** C8 (amended): with the admin key, creating or updating an event whose
    [short_info] has a carriage return or a line feed fails request
    validation and nothing is stored.  A [short_info] without them and of at
    most 255 characters passes; when moreover the title, the [short_info]
    and the cover URL encode as UTF-8, creation stores the event with it,
    and an update stores it in the event of the given identifier, or fails
    with 404 when there is no such event and the identifier fits a signed
    64-bit integer. *)
Theorem event_short_info_single_line (rt : Runtime) (event_id : Z)
    (payload : EventCreate) (w : World) :
  let v := ec_short_info payload in
  let create := serve rt (Some ADMIN_API_KEY) (POST_admin_events payload) w in
  let update :=
    serve rt (Some ADMIN_API_KEY) (PUT_admin_events event_id payload) w in
  (has_line_break v = true ->
     create = (Err RequestValidationError, w)
     /\ update = (Err RequestValidationError, w)
     /\ kind_of RequestValidationError = ValidationError)
  /\ (has_line_break v = false -> (length v <= 255)%nat ->
      event_text_ok payload = true ->
      (let e := created_event (database w) payload in
       create =
         (if event_out_ok rt e then Ok (EventItem e)
          else Err InternalServerError,
          mkWorld (set_events (fun t => t ++ [e]) (database w)) (media w))
       /\ Event.short_info e = v)
      /\ (let e := updated_event event_id payload in
          (event_exists event_id (database w) = true ->
           update =
             (if event_out_ok rt e then Ok (EventItem e)
              else Err InternalServerError,
              mkWorld (set_events
                         (update_by Event.id event_id (fun _ => e))
                         (database w))
                      (media w)))
          /\ (event_exists event_id (database w) = false ->
              sqlite_int_ok event_id = true ->
              update =
                (Err (HTTPException 404 (py "Мероприятие не найдено")), w)
              /\ kind_of (HTTPException 404 (py "Мероприятие не найдено"))
                 = NotFound)
          /\ Event.short_info e = v)).
Proof.
  intros v create update. subst v create update.
  rewrite serve_create_event, serve_update_event. split.
  - intros Hbreak. rewrite Hbreak, orb_true_r. repeat split.
  - intros Hline Hlen Htext. rewrite Hline, orb_false_r.
    apply Nat.ltb_ge in Hlen. rewrite Hlen, Htext. cbv zeta.
    split; [split; reflexivity|]. split; [|split; [|reflexivity]].
    + intros Hex. unfold event_exists in Hex.
      destruct (first_by Event.id event_id (events (database w))) eqn:E;
        [reflexivity|].
      apply first_by_none in E. congruence.
    + intros Hno Hfit. unfold event_exists in Hno.
      apply first_by_none in Hno. rewrite Hno, Hfit. split; reflexivity.
Qed.

Lemma event_short_info_single_line_witness :
  (serve Sample.rt (Some ADMIN_API_KEY)
     (POST_admin_events
        (mkEventCreate (py "Fair") 739000 [72; 105; 10; 33]%N None))
     Sample.world
   = (Err RequestValidationError, Sample.world)
   /\ serve Sample.rt (Some ADMIN_API_KEY)
        (PUT_admin_events 1
           (mkEventCreate (py "Fair") 739000 [72; 105; 10; 33]%N None))
        Sample.world
      = (Err RequestValidationError, Sample.world)
   /\ kind_of RequestValidationError = ValidationError)
  /\ events (database (snd (serve Sample.rt (Some ADMIN_API_KEY)
       (POST_admin_events (mkEventCreate (py "Fair") 739000 (py "Hi!") None))
       Sample.world)))
     = [Event.mk 1 (py "Fair") 739000 (py "Hi!") None]
  /\ serve Sample.rt (Some ADMIN_API_KEY)
       (PUT_admin_events 4 (mkEventCreate (py "Fair") 739000 (py "Hi!") None))
       Sample.world
     = (Err (HTTPException 404 (py "Мероприятие не найдено")), Sample.world).
Proof.
  split; [|split].
  - apply (proj1 (event_short_info_single_line Sample.rt 1
             (mkEventCreate (py "Fair") 739000 [72; 105; 10; 33]%N None)
             Sample.world)).
    reflexivity.
  - destruct (proj2 (event_short_info_single_line Sample.rt 1
               (mkEventCreate (py "Fair") 739000 (py "Hi!") None)
               Sample.world) eq_refl ltac:(vm_compute; lia) eq_refl)
      as [[Hcreate _] _].
    rewrite Hcreate. reflexivity.
  - destruct (proj2 (event_short_info_single_line Sample.rt 4
               (mkEventCreate (py "Fair") 739000 (py "Hi!") None)
               Sample.world) eq_refl ltac:(vm_compute; lia) eq_refl)
      as [_ (_ & Hmissing & _)].
    apply Hmissing; reflexivity.
Defined.

(** ** Navigation *)

Lemma nav_items_plain (item : NavItem) :
  item ∈ nav_items -> nav_is_active item = false /\ nav_id item <> [].
Proof.
  revert item. apply Forall_forall.
  repeat constructor; discriminate.
Qed.

(** X1: whatever [active] is, the navigation has the same five entries in
    the same order, and an entry is marked active exactly when [active] is
    its identifier. *)
Theorem navigation_marks_the_active_item (active : option pystr) :
  map nav_id (get_navigation active) = map nav_id nav_items
  /\ map nav_title (get_navigation active) = map nav_title nav_items
  /\ map nav_path (get_navigation active) = map nav_path nav_items
  /\ forall item, item ∈ get_navigation active ->
       (nav_is_active item = true <-> active = Some (nav_id item)).
Proof.
  unfold get_navigation.
  destruct active as [a|].
  2:{ split; [reflexivity|]. split; [reflexivity|]. split; [reflexivity|].
      intros item Hitem. destruct (nav_items_plain item Hitem) as [Hoff _].
      rewrite Hoff. split; discriminate. }
  destruct (PyStr.truthy a) eqn:Ha.
  2:{ split; [reflexivity|]. split; [reflexivity|]. split; [reflexivity|].
      intros item Hitem. destruct (nav_items_plain item Hitem) as [Hoff Hid].
      rewrite Hoff. split; [discriminate|].
      intros [= ->]. destruct (nav_id item); [contradiction|discriminate]. }
  split; [|split; [|split]].
  1-3: rewrite map_map; apply map_ext; intros item;
       destruct (PyStr.eqb (nav_id item) a); reflexivity.
  intros item Hitem. apply list_elem_of_fmap in Hitem.
  destruct Hitem as (it & -> & Hit). unfold PyStr.eqb.
  destruct (nav_items_plain it Hit) as [Hoff _].
  destruct (bool_decide (nav_id it = a)) eqn:E.
  - apply bool_decide_eq_true_1 in E. subst a. simpl. tauto.
  - apply bool_decide_eq_false_1 in E. rewrite Hoff. split.
    + discriminate.
    + intros [= ->]. contradiction.
Qed.

(** ** Well-formedness is kept by every request *)

Lemma store_ok_frame (s s' : Store) :
  reviews s' = reviews s ->
  (forall i, place_exists i s = true -> place_exists i s' = true) ->
  store_ok s -> store_ok s'.
Proof.
  unfold store_ok, reviews_reference_places, ratings_in_range.
  intros Hr Hp [Hfk Hrt]. rewrite Hr. split; [|exact Hrt].
  rewrite forallb_forall in *. intros r Hin. apply Hp, Hfk, Hin.
Qed.

Lemma place_exists_added (i : Z) (s : Store) (row : Place.t) :
  place_exists i s = true ->
  place_exists i (set_places (fun t => t ++ [row]) s) = true.
Proof.
  unfold place_exists. cbn [places set_places]. intros H.
  rewrite existsb_app, H. reflexivity.
Qed.

Lemma store_ok_status (s : Store) (i : Z) (st : ReviewStatus) :
  store_ok s ->
  store_ok (set_reviews (update_by Review.id i (Review.with_status st)) s).
Proof.
  unfold store_ok, reviews_reference_places, ratings_in_range, place_exists,
    update_by.
  cbn [reviews places set_reviews]. intros [Hfk Hrt].
  rewrite !forallb_forall in *.
  split; intros r Hin; apply in_map_iff in Hin;
    destruct Hin as (r0 & <- & Hin0);
    destruct (bool_decide (Review.id r0 = i)); cbn;
    first [apply Hfk | apply Hrt]; exact Hin0.
Qed.

Lemma store_ok_with_review (s : Store) (row : Review.t)
    (ps : list ReviewPhoto.t) :
  store_ok s ->
  place_exists (Review.place_id row) s = true ->
  rating_in_range (Review.rating row) = true ->
  store_ok (store_with_review s row ps).
Proof.
  unfold store_ok, reviews_reference_places, ratings_in_range, place_exists.
  cbn [reviews places store_with_review]. intros [Hfk Hrt] Hp Hr.
  rewrite !forallb_app. cbn [forallb]. rewrite Hfk, Hrt, Hp, Hr. split; reflexivity.
Qed.

Lemma keeps_ret {A} (a : A) : keeps (ret a).
Proof. intros u Hs Hc. split; assumption. Qed.

Lemma keeps_raise {A} (e : HTTPError) : keeps (@raise A e).
Proof. intros u Hs Hc. split; assumption. Qed.

Lemma keeps_query {A} (q : Store -> A) : keeps (query q).
Proof. intros u Hs Hc. split; assumption. Qed.

Lemma keeps_commit : keeps commit.
Proof. intros u Hs Hc. split; assumption. Qed.

Lemma keeps_write_bytes (path bytes : pystr) : keeps (write_bytes path bytes).
Proof. intros u Hs Hc. split; assumption. Qed.

Lemma keeps_execute (f : Store -> Store) :
  (forall s, store_ok s -> store_ok (f s)) -> keeps (execute f).
Proof. intros Hf u Hs Hc. split; [apply Hf; exact Hs|exact Hc]. Qed.

Lemma keeps_bind {A B} (m : M A) (k : A -> M B) :
  keeps m -> (forall a, keeps (k a)) -> keeps (bind m k).
Proof.
  intros Hm Hk u Hs Hc. unfold bind.
  destruct (Hm u Hs Hc) as [Hs' Hc'].
  destruct (m u) as [[a|e] u']; cbn [snd] in *.
  - apply Hk; assumption.
  - split; assumption.
Qed.

(** Inserts, updates and deletes outside [places] and [reviews]. *)
Ltac store_ok_step :=
  let s := fresh "s" in
  let Hs := fresh "Hs" in
  intros s Hs;
  first
    [ apply store_ok_status; exact Hs
    | apply (store_ok_frame s); [reflexivity| |exact Hs];
      intros ? ?; first [assumption | apply place_exists_added; assumption] ].

Ltac keeps_step :=
  first
    [ apply keeps_ret | apply keeps_raise | apply keeps_query
    | apply keeps_commit | apply keeps_write_bytes
    | apply keeps_bind; [|intros ?]
    | apply keeps_execute; store_ok_step
    | match goal with
      | |- keeps (match ?x with _ => _ end) => destruct x
      | |- keeps (if ?b then _ else _) => destruct b
      | |- keeps (let _ := _ in _) => cbv zeta
      end ].

Lemma keeps_bind_int (column : Store -> list Z) (i : Z) :
  keeps (bind_int column i).
Proof. unfold bind_int. repeat keeps_step. Qed.

Lemma keeps_bind_text (params : list pystr) : keeps (bind_text params).
Proof. unfold bind_text. repeat keeps_step. Qed.

Lemma keeps_select_first {A} (table : Store -> list A) (key : A -> Z)
    (i : Z) : keeps (select_first table key i).
Proof.
  unfold select_first. apply keeps_bind; [apply keeps_bind_int|intros _].
  apply keeps_query.
Qed.

Lemma keeps_refresh {A} (table : Store -> list A) (key : A -> Z) (row : A) :
  keeps (refresh table key row).
Proof. unfold refresh. repeat keeps_step. Qed.

Lemma keeps_save_review_photos (rt : Runtime) (review_id : Z)
    (file_list : list UploadFile) :
  forall k, keeps (save_review_photos rt review_id k file_list).
Proof.
  induction file_list as [|uploaded rest IH]; intros k; simpl.
  - apply keeps_ret.
  - unfold add_review_photo. repeat keeps_step. apply IH.
Qed.

Lemma keeps_post_reviews (rt : Runtime) (api_key : option pystr)
    (place_id : Z) (author_name : option pystr) (rating : Z) (text : pystr)
    (uploads : option (list UploadFile)) :
  keeps (route rt api_key
           (POST_reviews place_id author_name rating text uploads)).
Proof.
  intros u Hs Hc.
  destruct (route_create_review rt api_key place_id author_name rating text
              uploads u) as (ps & fs & _ & _ & _ & Hrun).
  rewrite Hrun. clear Hrun.
  destruct (rating_in_range rating) eqn:Er; cbn [negb orb];
    [|split; assumption].
  destruct (PyStr.truthy text); cbn [negb orb]; [|split; assumption].
  destruct (place_exists place_id (session u)) eqn:Ep; cbn [negb];
    [|destruct (sqlite_int_ok place_id); split; assumption].
  destruct (5 <? length (default [] uploads))%nat; [split; assumption|].
  cbn [snd session committed].
  assert (store_ok (store_with_review (session u)
            (submitted_review rt (session u) place_id
               (form_author_name author_name) rating text)
            ps))
    by (apply store_ok_with_review; assumption).
  split; assumption.
Qed.

Lemma keeps_route (rt : Runtime) (api_key : option pystr) (req : Request) :
  keeps (route rt api_key req).
Proof.
  destruct req; try apply keeps_post_reviews;
    unfold route, require_admin, parse_EventCreate, respond_reviews,
      respond_event, respond_events, respond_section,
      list_places, list_reviews, list_events, get_gallery,
      upload_gallery_photo, create_feedback, admin_list_pending_reviews,
      admin_approve_review, admin_create_place, admin_create_event,
      admin_create_gallery_section, admin_add_gallery_photo,
      admin_list_events, admin_update_event, admin_delete_event,
      admin_rename_gallery_section, admin_delete_gallery_section,
      admin_delete_gallery_photo, admin_list_feedback,
      admin_mark_feedback_read,
      add_place, add_event, add_gallery_section, add_gallery_photo,
      add_feedback;
    repeat first [apply keeps_refresh | apply keeps_select_first
                 | apply keeps_bind_int | apply keeps_bind_text
                 | keeps_step].
Qed.

Lemma serve_keeps_store_ok (rt : Runtime) (api_key : option pystr)
    (req : Request) (w : World) :
  store_ok (database w) -> store_ok (database (snd (serve rt api_key req w))).
Proof.
  intros Hok. unfold serve. rewrite run_request_unfold. cbn [snd database].
  apply (keeps_route rt api_key req
           (mkWork (database w) (database w) (media w))); exact Hok.
Qed.

Lemma reachable_is_store_ok (w : World) : reachable w -> store_ok (database w).
Proof.
  induction 1 as [fs|rt api_key req w Hreach IH].
  - split; reflexivity.
  - apply serve_keeps_store_ok. exact IH.
Qed.

(** X2: every world the service can reach from an empty database is
    well-formed: each stored review references a stored place and has a
    rating between 1 and 5. *)
Theorem reachable_store_ok (w : World) :
  reachable w ->
  reviews_reference_places (database w) = true
  /\ ratings_in_range (database w) = true.
Proof.
  intros Hreach. destruct (reachable_is_store_ok w Hreach) as [Hfk Hrange].
  split; [exact Hfk|exact Hrange].
Qed.

Lemma reachable_store_ok_witness :
  reviews_reference_places
    (database (snd (serve Sample.rt None
       (POST_reviews 1 None 4 (py "Great spot") None)
       (snd (serve Sample.rt (Some ADMIN_API_KEY)
          (POST_admin_places
             (mkPlaceCreate (py "Park") (py "outdoor") (py "56.1")
                            (py "47.2") None))
          (mkWorld empty_store [])))))) = true
  /\ ratings_in_range
    (database (snd (serve Sample.rt None
       (POST_reviews 1 None 4 (py "Great spot") None)
       (snd (serve Sample.rt (Some ADMIN_API_KEY)
          (POST_admin_places
             (mkPlaceCreate (py "Park") (py "outdoor") (py "56.1")
                            (py "47.2") None))
          (mkWorld empty_store [])))))) = true.
Proof.
  apply reachable_store_ok.
  apply reachable_serve. apply reachable_serve. apply reachable_empty.
Defined.

(** ** Moderation end to end *)

Lemma review_exists_elem (r : Review.t) (s : Store) :
  r ∈ reviews s -> review_exists (Review.id r) s = true.
Proof.
  intros Hr. unfold review_exists. apply existsb_exists. exists r.
  split; [apply list_elem_of_In; exact Hr|].
  apply bool_decide_eq_true_2. reflexivity.
Qed.

(** X3: a stored review that is pending is not in the public listing of its
    place; once an administrator approves its identifier, the listing of
    its place contains it, with status approved. *)
Theorem approved_review_becomes_visible (rt : Runtime) (r : Review.t)
    (w : World) :
  r ∈ reviews (database w) ->
  Review.status r = pending ->
  let w' := snd (serve rt (Some ADMIN_API_KEY)
                   (POST_admin_reviews_approve (Review.id r)) w) in
  (exists rows, run_request (list_reviews (Review.place_id r)) w = (Ok rows, w)
                /\ r ∉ rows)
  /\ (exists rows, run_request (list_reviews (Review.place_id r)) w'
                   = (Ok rows, w')
                   /\ Review.with_status approved r ∈ rows).
Proof.
  intros Hr Hst w'.
  assert (Hw' : w' = mkWorld (approved_store (Review.id r) (database w))
                             (media w)).
  { subst w'.
    rewrite serve_approve, admin_approve_review_known
      by (apply review_exists_elem; exact Hr).
    reflexivity. }
  assert (Hr' : Review.with_status approved r
                ∈ reviews (approved_store (Review.id r) (database w))).
  { cbn [approved_store reviews set_reviews]. unfold update_by.
    apply list_elem_of_fmap. exists r.
    rewrite bool_decide_eq_true_2 by reflexivity.
    split; [reflexivity|exact Hr]. }
  split.
  - eexists. split.
    + rewrite list_reviews_run.
      rewrite (bindable_stored Review.place_id _ r Hr). reflexivity.
    + rewrite merge_sort_Permutation, approved_of_spec.
      intros (_ & _ & Happ). congruence.
  - rewrite Hw'. eexists. split.
    + rewrite list_reviews_run. cbn [database].
      pose proof (bindable_stored Review.place_id _ _ Hr') as Hb.
      change (Review.place_id (Review.with_status approved r))
        with (Review.place_id r) in Hb.
      rewrite Hb. reflexivity.
    + rewrite merge_sort_Permutation, approved_of_spec.
      split; [exact Hr'|split; reflexivity].
Qed.

Lemma approved_review_becomes_visible_witness :
  (exists rows, run_request (list_reviews 1) Sample.world
                = (Ok rows, Sample.world)
                /\ Sample.new_review ∉ rows)
  /\ (exists rows,
        run_request (list_reviews 1)
          (snd (serve Sample.rt (Some ADMIN_API_KEY)
                  (POST_admin_reviews_approve 2) Sample.world))
        = (Ok rows,
           snd (serve Sample.rt (Some ADMIN_API_KEY)
                  (POST_admin_reviews_approve 2) Sample.world))
        /\ Review.with_status approved Sample.new_review ∈ rows).
Proof.
  apply (approved_review_becomes_visible Sample.rt Sample.new_review
           Sample.world).
  - right. left.
  - reflexivity.
Defined.

(** X4: with the admin key, the pending listing is exactly the reviews with
    status pending, of every place, newest first, and reading it changes
    nothing. *)
Theorem pending_reviews_listing (rt : Runtime) (w : World) :
  exists rows : list Review.t,
    run_request admin_list_pending_reviews w = (Ok rows, w)
    /\ rows ≡ₚ pending_of (database w)
    /\ (forall r, r ∈ rows <->
          r ∈ reviews (database w) /\ Review.status r = pending)
    /\ StronglySorted newer rows
    /\ serve rt (Some ADMIN_API_KEY) GET_admin_reviews_pending w =
       (if forallb (fun r => rating_in_range (Review.rating r)) rows
        then Ok (ReviewList (map (review_out (database w)) rows))
        else Err InternalServerError, w).
Proof.
  exists (merge_sort newer (pending_of (database w))).
  assert (Hperm : merge_sort newer (pending_of (database w))
                  ≡ₚ pending_of (database w))
    by apply merge_sort_Permutation.
  split.
  { rewrite run_request_unfold. simpl. rewrite world_eta. reflexivity. }
  split; [exact Hperm|]. split.
  { intros r. rewrite Hperm. unfold pending_of.
    rewrite list_elem_of_filter. tauto. }
  split; [apply StronglySorted_merge_sort; apply _|].
  unfold serve. rewrite run_request_unfold. unfold route, bind.
  rewrite require_admin_accepts. simpl.
  unfold respond_reviews, bind, query, ret, raise.
  fold (pending_of (database w)).
  destruct (forallb _ _); simpl; rewrite world_eta; reflexivity.
Qed.

(** ** Events *)

#[global] Instance earlier_trans : Transitive earlier.
Proof. unfold earlier; intros a b c; lia. Qed.

#[global] Instance earlier_total : Total earlier.
Proof. unfold earlier; intros a b; lia. Qed.

Lemma serve_list_events (rt : Runtime) (api_key : option pystr) (w : World) :
  serve rt api_key GET_events w =
  (if forallb (event_out_ok rt) (events (database w))
   then Ok (EventList (merge_sort earlier (events (database w))))
   else Err InternalServerError, w).
Proof.
  assert (Hall : forallb (event_out_ok rt)
                   (merge_sort earlier (events (database w)))
                 = forallb (event_out_ok rt) (events (database w))).
  { apply eq_true_iff_eq. rewrite !forallb_forall.
    split; intros H e He; apply H; apply list_elem_of_In;
      apply list_elem_of_In in He;
      [rewrite merge_sort_Permutation
      |rewrite merge_sort_Permutation in He]; exact He. }
  destruct w as [db md]. cbn [database media] in *.
  unfold serve, run_request, route, bind, list_events, query.
  cbn [session database media]. unfold respond_events. rewrite Hall.
  clear Hall.
  destruct (forallb (event_out_ok rt) (events db)); reflexivity.
Qed.

(** X5: the event listing is all stored events, earliest date first; the
    public route and the admin route (with the admin key) answer alike, and
    the answer is a server error as soon as one stored event has a cover
    URL that is not an HTTP URL. *)
Theorem events_listed_by_date (rt : Runtime) (api_key : option pystr)
    (w : World) :
  exists rows : list Event.t,
    run_request list_events w = (Ok rows, w)
    /\ rows ≡ₚ events (database w)
    /\ StronglySorted earlier rows
    /\ serve rt api_key GET_events w =
       (if forallb (event_out_ok rt) (events (database w))
        then Ok (EventList rows) else Err InternalServerError, w)
    /\ serve rt (Some ADMIN_API_KEY) GET_admin_events w
       = serve rt api_key GET_events w.
Proof.
  exists (merge_sort earlier (events (database w))).
  assert (Hperm : merge_sort earlier (events (database w))
                  ≡ₚ events (database w))
    by apply merge_sort_Permutation.
  split.
  { rewrite run_request_unfold. simpl. rewrite world_eta. reflexivity. }
  split; [exact Hperm|].
  split; [apply StronglySorted_merge_sort; apply _|].
  split; [apply serve_list_events|reflexivity].
Qed.

(** ** Reads and the admin key *)

Lemma quiet_ret {A} (a : A) : quiet (ret a).
Proof. intros u; reflexivity. Qed.

Lemma quiet_raise {A} (e : HTTPError) : quiet (@raise A e).
Proof. intros u; reflexivity. Qed.

Lemma quiet_query {A} (q : Store -> A) : quiet (query q).
Proof. intros u; reflexivity. Qed.

Lemma quiet_bind {A B} (m : M A) (k : A -> M B) :
  quiet m -> (forall a, quiet (k a)) -> quiet (bind m k).
Proof.
  intros Hm Hk u. unfold bind. specialize (Hm u).
  destruct (m u) as [[a|e] u']; cbn [snd] in *; subst u';
    [apply Hk|reflexivity].
Qed.

Ltac quiet_step :=
  first
    [ apply quiet_ret | apply quiet_raise | apply quiet_query
    | apply quiet_bind; [|intros ?]
    | match goal with
      | |- quiet (match ?x with _ => _ end) => destruct x
      | |- quiet (if ?b then _ else _) => destruct b
      end ].

(** X6: a request that only reads (the seven GET routes) leaves the
    database and the media files exactly as they were, whatever the key and
    whether it succeeds or fails. *)
Theorem read_only_changes_nothing (rt : Runtime) (api_key : option pystr)
    (req : Request) (w : World) :
  read_only req = true ->
  snd (serve rt api_key req w) = w.
Proof.
  intros Hread.
  assert (Hq : quiet (route rt api_key req)).
  { destruct req; try discriminate Hread;
      unfold route, require_admin, respond_reviews, respond_events,
        list_places, list_reviews, list_events, get_gallery,
        admin_list_pending_reviews, admin_list_events, admin_list_feedback,
        bind_int;
      repeat quiet_step. }
  unfold serve. rewrite run_request_unfold. cbn [snd]. rewrite Hq.
  cbn [committed disk]. apply world_eta.
Qed.

Lemma read_only_changes_nothing_witness :
  snd (serve Sample.rt None GET_gallery Sample.world) = Sample.world
  /\ snd (serve Sample.rt (Some ADMIN_API_KEY) GET_admin_feedback
            Sample.world) = Sample.world.
Proof.
  split.
  - apply (read_only_changes_nothing Sample.rt None GET_gallery Sample.world).
    reflexivity.
  - apply (read_only_changes_nothing Sample.rt (Some ADMIN_API_KEY)
             GET_admin_feedback Sample.world).
    reflexivity.
Defined.

(** X7: the seven public routes never look at the admin key: with any two
    keys (or none) they give the same response and the same state. *)
Theorem public_route_ignores_key (rt : Runtime) (key1 key2 : option pystr)
    (req : Request) (w : World) :
  admin_only req = false ->
  serve rt key1 req w = serve rt key2 req w.
Proof.
  intros Hpublic. destruct req; try discriminate Hpublic; reflexivity.
Qed.

Lemma public_route_ignores_key_witness :
  serve Sample.rt None (POST_reviews 1 None 4 (py "Great spot") None)
        Sample.world
  = serve Sample.rt (Some ADMIN_API_KEY)
          (POST_reviews 1 None 4 (py "Great spot") None) Sample.world.
Proof.
  apply (public_route_ignores_key Sample.rt None (Some ADMIN_API_KEY)
           (POST_reviews 1 None 4 (py "Great spot") None) Sample.world).
  reflexivity.
Defined.

(** ** More on submissions and uploads *)

(** X8: a well-formed submission that names a place identifier which fits
    a signed 64-bit integer and is the identifier of no stored place fails
    with the 404 [HTTPException], whatever the number of photos, and
    nothing is written. *)
Theorem review_for_unknown_place_rejected (rt : Runtime)
    (api_key : option pystr) (place_id : Z) (author_name : option pystr)
    (rating : Z) (text : pystr) (uploads : option (list UploadFile))
    (w : World) :
  rating_in_range rating = true ->
  text <> [] ->
  sqlite_int_ok place_id = true ->
  place_exists place_id (database w) = false ->
  serve rt api_key (POST_reviews place_id author_name rating text uploads) w
  = (Err (HTTPException 404 (py "Локация не найдена")), w)
  /\ kind_of (HTTPException 404 (py "Локация не найдена")) = NotFound.
Proof.
  intros Hr Ht Hfit Hp. split; [|reflexivity].
  destruct (serve_create_review rt api_key place_id author_name rating text
              uploads w) as (ps & fs & _ & _ & _ & Hrun).
  rewrite Hrun. apply truthy_nonempty in Ht. rewrite Hr, Ht, Hp, Hfit.
  reflexivity.
Qed.

Lemma review_for_unknown_place_rejected_witness :
  serve Sample.rt None
    (POST_reviews 7 None 4 (py "Where?")
       (Some (repeat (Sample.photo "p.jpg") 6))) Sample.world
  = (Err (HTTPException 404 (py "Локация не найдена")), Sample.world)
  /\ kind_of (HTTPException 404 (py "Локация не найдена")) = NotFound.
Proof.
  apply (review_for_unknown_place_rejected Sample.rt None 7 None 4
           (py "Where?") (Some (repeat (Sample.photo "p.jpg") 6))
           Sample.world); [reflexivity|discriminate|reflexivity|reflexivity].
Defined.



(** X10: an upload whose file has no name, or an empty one, fails with the
    400 [HTTPException] before anything is looked up or written. *)
Theorem upload_without_filename_rejected (rt : Runtime)
    (api_key : option pystr) (file : UploadFile)
    (section_name : option pystr) (w : World) :
  filename file = None \/ filename file = Some [] ->
  serve rt api_key (POST_gallery_upload file section_name) w
  = (Err (HTTPException 400 (py "Файл не выбран")), w)
  /\ kind_of (HTTPException 400 (py "Файл не выбран")) = ValidationError.
Proof.
  intros Hname. split; [|reflexivity].
  destruct w as [db md].
  unfold serve, run_request, route, bind, upload_gallery_photo.
  destruct Hname as [-> | ->]; reflexivity.
Qed.

Lemma upload_without_filename_rejected_witness :
  serve Sample.rt None
    (POST_gallery_upload (mkUpload None (py "bytes")) (Some (py "Winter")))
    Sample.world
  = (Err (HTTPException 400 (py "Файл не выбран")), Sample.world)
  /\ kind_of (HTTPException 400 (py "Файл не выбран")) = ValidationError.
Proof.
  apply (upload_without_filename_rejected Sample.rt None
           (mkUpload None (py "bytes")) (Some (py "Winter")) Sample.world).
  left. reflexivity.
Defined.

(** ** Deleting a gallery section *)

Lemma admin_delete_gallery_section_run (section_id : Z) (u : Work) :
  admin_delete_gallery_section section_id u =
  if section_exists section_id (session u)
  then (Ok section_id,
        mkWork (store_without_section section_id (session u))
               (store_without_section section_id (session u)) (disk u))
  else (if sqlite_int_ok section_id
        then Err (HTTPException 404 (py "Раздел галереи не найден"))
        else Err InternalServerError, u).
Proof.
  unfold admin_delete_gallery_section. unfold bind at 1.
  rewrite select_first_run. unfold section_exists.
  destruct (first_by GallerySection.id section_id
              (gallery_sections (session u))) as [g|] eqn:E.
  - destruct (first_by_key _ _ _ _ E) as [Hid Hin].
    assert (Hex : existsb
              (fun g0 => bool_decide (GallerySection.id g0 = section_id))
              (gallery_sections (session u)) = true).
    { apply existsb_exists. exists g. split.
      - apply list_elem_of_In; exact Hin.
      - apply bool_decide_eq_true_2; exact Hid. }
    rewrite Hex. unfold bind, execute, commit, ret. rewrite Hid.
    reflexivity.
  - apply first_by_none in E. rewrite E.
    destruct (sqlite_int_ok section_id); reflexivity.
Qed.

Lemma section_exists_after_delete (i j : Z) (s : Store) :
  i <> j ->
  section_exists i (store_without_section j s) = section_exists i s.
Proof.
  intros Hij. unfold section_exists, store_without_section, delete_by.
  cbn [gallery_sections set_gallery_sections set_gallery_photos].
  induction (gallery_sections s) as [|g l IH]; [reflexivity|].
  rewrite filter_cons. destruct (decide (GallerySection.id g <> j)) as [Hg|Hg].
  - cbn [existsb]. rewrite IH. reflexivity.
  - cbn [existsb]. rewrite IH.
    rewrite bool_decide_eq_false_2; [reflexivity|].
    intros Hgi. apply Hg. congruence.
Qed.

(** X11: with the admin key, deleting a section identifier that exists
    succeeds, removes exactly the sections with that identifier and exactly
    the photos that belong to it, and touches nothing else; if every photo
    referenced a stored section before, every photo does afterwards.  An
    identifier that fits a signed 64-bit integer and is the identifier of
    no section fails with the 404 [HTTPException] and nothing changes. *)
Theorem delete_section_cascades (rt : Runtime) (section_id : Z) (w : World) :
  let out := serve rt (Some ADMIN_API_KEY)
               (DELETE_admin_gallery_sections section_id) w in
  (section_exists section_id (database w) = true ->
     out = (Ok (Deleted section_id),
            mkWorld (store_without_section section_id (database w)) (media w))
     /\ (forall g, g ∈ gallery_sections (database (snd out)) <->
           g ∈ gallery_sections (database w)
           /\ GallerySection.id g <> section_id)
     /\ (forall p, p ∈ gallery_photos (database (snd out)) <->
           p ∈ gallery_photos (database w)
           /\ GalleryPhoto.section_id p <> section_id)
     /\ (photos_reference_sections (database w) = true ->
         photos_reference_sections (database (snd out)) = true))
  /\ (section_exists section_id (database w) = false ->
      sqlite_int_ok section_id = true ->
      out = (Err (HTTPException 404 (py "Раздел галереи не найден")), w)).
Proof.
  intros out.
  assert (Hout : out =
    if section_exists section_id (database w)
    then (Ok (Deleted section_id),
          mkWorld (store_without_section section_id (database w)) (media w))
    else (if sqlite_int_ok section_id
          then Err (HTTPException 404 (py "Раздел галереи не найден"))
          else Err InternalServerError, w)).
  { subst out. unfold serve, run_request, route.
    unfold bind at 1. rewrite require_admin_accepts.
    unfold bind at 1. rewrite admin_delete_gallery_section_run.
    cbn [session].
    destruct (section_exists section_id (database w)); [reflexivity|].
    destruct (sqlite_int_ok section_id);
      cbn [committed disk]; rewrite world_eta; reflexivity. }
  rewrite Hout. clear Hout.
  split; intros Hex; rewrite Hex; [|intros Hfit; rewrite Hfit; reflexivity].
  split; [reflexivity|].
  cbn [snd database]. split; [|split].
  - intros g. unfold store_without_section, delete_by.
    cbn [gallery_sections set_gallery_sections set_gallery_photos].
    rewrite list_elem_of_filter. tauto.
  - intros p. unfold store_without_section, delete_by.
    cbn [gallery_photos set_gallery_sections set_gallery_photos].
    rewrite list_elem_of_filter. tauto.
  - unfold photos_reference_sections. rewrite !forallb_forall.
    intros Hfk p Hp.
    assert (Hp' : p ∈ gallery_photos (database w)
                  /\ GalleryPhoto.section_id p <> section_id).
    { apply list_elem_of_In in Hp. revert Hp.
      unfold store_without_section, delete_by.
      cbn [gallery_photos set_gallery_sections set_gallery_photos].
      rewrite list_elem_of_filter. tauto. }
    destruct Hp' as [Hin Hne].
    rewrite section_exists_after_delete by exact Hne.
    apply Hfk. apply list_elem_of_In. exact Hin.
Qed.

Lemma delete_section_cascades_witness :
  serve Sample.rt (Some ADMIN_API_KEY) (DELETE_admin_gallery_sections 1)
        Sample.world
  = (Ok (Deleted 1), mkWorld (store_without_section 1 Sample.store) [])
  /\ serve Sample.rt (Some ADMIN_API_KEY) (DELETE_admin_gallery_sections 5)
           Sample.world
     = (Err (HTTPException 404 (py "Раздел галереи не найден")),
        Sample.world).
Proof.
  split.
  - apply (proj1 (delete_section_cascades Sample.rt 1 Sample.world)).
    reflexivity.
  - apply (proj2 (delete_section_cascades Sample.rt 5 Sample.world));
      reflexivity.
Defined.

(** ** Feedback *)

(** X12: a feedback submission whose strings encode as UTF-8 succeeds,
    whatever else they are: it appends one row holding the submitted
    fields, unread, under a key no stored feedback has, and answers with
    that row.  When a string does not encode (a lone surrogate from the
    JSON body), the answer is a server error and nothing is stored. *)
Theorem feedback_is_stored_unread (rt : Runtime) (api_key : option pystr)
    (payload : FeedbackCreate) (w : World) :
  let row := submitted_feedback rt (database w) payload in
  (feedback_text_ok payload = true ->
     serve rt api_key (POST_feedback payload) w
     = (Ok (FeedbackItem row),
        mkWorld (set_feedback (fun t => t ++ [row]) (database w)) (media w))
     /\ Feedback.is_read row = false
     /\ Forall (fun f => Feedback.id f <> Feedback.id row)
               (feedback (database w)))
  /\ (feedback_text_ok payload = false ->
      serve rt api_key (POST_feedback payload) w
      = (Err InternalServerError, w)).
Proof.
  intros row.
  assert (Hrun : serve rt api_key (POST_feedback payload) w =
    if feedback_text_ok payload
    then (Ok (FeedbackItem row),
          mkWorld (set_feedback (fun t => t ++ [row]) (database w)) (media w))
    else (Err InternalServerError, w)).
  { subst row. unfold submitted_feedback.
    destruct w as [db md]. cbn [database media].
    unfold serve, run_request, route.
    unfold bind at 1. unfold create_feedback.
    unfold bind at 1. rewrite bind_text_run.
    fold (feedback_text_ok payload).
    destruct (feedback_text_ok payload); [|reflexivity].
    unfold bind at 1. unfold add_feedback.
    unfold bind at 1. unfold query at 1. unfold bind at 1.
    unfold execute at 1. unfold ret at 1.
    unfold bind at 1. unfold commit at 1.
    unfold refresh. unfold bind at 1. unfold query at 1.
    cbn [session committed disk feedback set_feedback].
    rewrite (find_fresh Feedback.id (feedback db)) by reflexivity.
    reflexivity. }
  rewrite Hrun. split; intros Htext; rewrite Htext; [|reflexivity].
  split; [reflexivity|]. split; [reflexivity|].
  apply Forall_forall. intros f Hin.
  pose proof (next_id_fresh Feedback.id (feedback (database w)) f Hin).
  subst row. unfold submitted_feedback. cbn [Feedback.id]. lia.
Qed.

Lemma feedback_is_stored_unread_witness :
  serve Sample.rt None
    (POST_feedback (mkFeedbackCreate (py "Eve") None (py "Thanks")))
    Sample.inbox
  = (Ok (FeedbackItem
           (Feedback.mk 2 (py "Eve") None (py "Thanks") false 1700000000)),
     mkWorld
       (set_feedback
          (fun t => t ++ [Feedback.mk 2 (py "Eve") None (py "Thanks") false
                                      1700000000])
          (database Sample.inbox)) [])
  /\ serve Sample.rt None
       (POST_feedback (mkFeedbackCreate [55296%N] None (py "Thanks")))
       Sample.inbox
     = (Err InternalServerError, Sample.inbox).
Proof.
  split.
  - apply (proj1 (feedback_is_stored_unread Sample.rt None
                    (mkFeedbackCreate (py "Eve") None (py "Thanks"))
                    Sample.inbox)).
    reflexivity.
  - apply (proj2 (feedback_is_stored_unread Sample.rt None
                    (mkFeedbackCreate [55296%N] None (py "Thanks"))
                    Sample.inbox)).
    reflexivity.
Defined.

Lemma admin_mark_feedback_read_run (feedback_id : Z) (u : Work) :
  admin_mark_feedback_read feedback_id u =
  if feedback_exists feedback_id (session u)
  then (Ok (feedback_id, true),
        mkWork (read_store feedback_id (session u))
               (read_store feedback_id (session u)) (disk u))
  else (if sqlite_int_ok feedback_id
        then Err (HTTPException 404 (py "Сообщение не найдено"))
        else Err InternalServerError, u).
Proof.
  unfold admin_mark_feedback_read. unfold bind at 1.
  rewrite select_first_run. unfold feedback_exists.
  destruct (first_by Feedback.id feedback_id (feedback (session u)))
    as [f|] eqn:E.
  - destruct (first_by_key _ _ _ _ E) as [Hid Hin].
    assert (Hex : existsb
              (fun f0 => bool_decide (Feedback.id f0 = feedback_id))
              (feedback (session u)) = true).
    { apply existsb_exists. exists f. split.
      - apply list_elem_of_In; exact Hin.
      - apply bool_decide_eq_true_2; exact Hid. }
    rewrite Hex. unfold bind, execute, commit, query. simpl.
    unfold refresh, bind, query. simpl.
    fold (first_by Feedback.id (Feedback.id f)
            (update_by Feedback.id (Feedback.id f)
               (Feedback.with_is_read true) (feedback (session u)))).
    rewrite first_by_update by (intros f0 Hf0; exact Hf0).
    rewrite Hid, E. simpl. rewrite Hid. reflexivity.
  - apply first_by_none in E. rewrite E.
    destruct (sqlite_int_ok feedback_id); reflexivity.
Qed.

Lemma feedback_exists_read_store (i j : Z) (s : Store) :
  feedback_exists i (read_store j s) = feedback_exists i s.
Proof.
  unfold feedback_exists, read_store, update_by. simpl.
  induction (feedback s) as [|f rows IH]; simpl; [reflexivity|].
  rewrite IH. destruct (bool_decide (Feedback.id f = j)); reflexivity.
Qed.

Lemma read_store_idem (i : Z) (s : Store) :
  read_store i (read_store i s) = read_store i s.
Proof.
  unfold read_store, set_feedback. simpl.
  rewrite update_by_idem; [reflexivity|reflexivity|reflexivity].
Qed.

Lemma serve_mark_read (rt : Runtime) (feedback_id : Z) (w : World) :
  serve rt (Some ADMIN_API_KEY) (POST_admin_feedback_mark_read feedback_id) w
  = if feedback_exists feedback_id (database w)
    then (Ok (FeedbackRead feedback_id true),
          mkWorld (read_store feedback_id (database w)) (media w))
    else (if sqlite_int_ok feedback_id
          then Err (HTTPException 404 (py "Сообщение не найдено"))
          else Err InternalServerError, w).
Proof.
  destruct w as [db md]. cbn [database media].
  unfold serve, run_request, route.
  unfold bind at 1. rewrite require_admin_accepts.
  unfold bind at 1. rewrite admin_mark_feedback_read_run.
  cbn [session database media].
  destruct (feedback_exists feedback_id db); [reflexivity|].
  destruct (sqlite_int_ok feedback_id); reflexivity.
Qed.

(** X13: with the admin key, marking a stored feedback identifier read
    succeeds with [is_read] true, sets the flag on the feedback with that
    identifier and changes nothing else; doing it again gives the same
    answer and state (the flag is never cleared).  An identifier that fits
    a signed 64-bit integer and is the identifier of no feedback fails with
    the 404 [HTTPException] and nothing changes. *)
Theorem mark_feedback_read_outcome (rt : Runtime) (feedback_id : Z)
    (w : World) :
  let mark := serve rt (Some ADMIN_API_KEY)
                    (POST_admin_feedback_mark_read feedback_id) in
  (feedback_exists feedback_id (database w) = true ->
     mark w = (Ok (FeedbackRead feedback_id true),
               mkWorld (read_store feedback_id (database w)) (media w))
     /\ (forall f, f ∈ feedback (database (snd (mark w))) ->
           Feedback.id f = feedback_id -> Feedback.is_read f = true)
     /\ (forall f, f ∈ feedback (database (snd (mark w))) ->
           Feedback.id f <> feedback_id -> f ∈ feedback (database w))
     /\ mark (snd (mark w)) = mark w)
  /\ (feedback_exists feedback_id (database w) = false ->
      sqlite_int_ok feedback_id = true ->
      mark w = (Err (HTTPException 404 (py "Сообщение не найдено")), w)).
Proof.
  intros mark. subst mark. rewrite !serve_mark_read. split.
  - intros Hex. rewrite Hex. cbn [snd database].
    split; [reflexivity|]. split; [|split].
    + intros f Hf Hid. apply update_by_elem in Hf.
      destruct Hf as (f0 & _ & ->).
      destruct (bool_decide (Feedback.id f0 = feedback_id)) eqn:E;
        [reflexivity|].
      apply bool_decide_eq_false_1 in E. contradiction.
    + intros f Hf Hid. apply update_by_elem in Hf.
      destruct Hf as (f0 & Hf0 & ->).
      destruct (bool_decide (Feedback.id f0 = feedback_id)) eqn:E;
        [|exact Hf0].
      apply bool_decide_eq_true_1 in E. simpl in Hid. contradiction.
    + cbn [database media].
      rewrite feedback_exists_read_store, Hex, read_store_idem. reflexivity.
  - intros Hno Hfit. rewrite Hno, Hfit. reflexivity.
Qed.

Lemma mark_feedback_read_outcome_witness :
  serve Sample.rt (Some ADMIN_API_KEY) (POST_admin_feedback_mark_read 1)
        Sample.inbox
  = (Ok (FeedbackRead 1 true), mkWorld (read_store 1 (database Sample.inbox)) [])
  /\ serve Sample.rt (Some ADMIN_API_KEY) (POST_admin_feedback_mark_read 2)
           Sample.inbox
     = (Err (HTTPException 404 (py "Сообщение не найдено")), Sample.inbox).
Proof.
  split.
  - apply (proj1 (mark_feedback_read_outcome Sample.rt 1 Sample.inbox)).
    reflexivity.
  - apply (proj2 (mark_feedback_read_outcome Sample.rt 2 Sample.inbox));
      reflexivity.
Defined.

(** ** Events with a cover URL *)

(** X14: [EventCreate] takes any string as [cover_url] while [EventOut]
    wants an HTTP URL.  With the admin key, creating an event with a valid
    [short_info], strings that encode as UTF-8 and a cover URL that is not
    an HTTP URL stores the event
    and answers with a server error; from then on the public event listing
    answers with a server error too. *)
Theorem event_with_bad_cover_url_breaks_listing (rt : Runtime)
    (api_key : option pystr) (payload : EventCreate) (url : pystr)
    (w : World) :
  has_line_break (ec_short_info payload) = false ->
  (length (ec_short_info payload) <= 255)%nat ->
  event_text_ok payload = true ->
  ec_cover_url payload = Some url ->
  http_url_ok rt url = false ->
  let out := serve rt (Some ADMIN_API_KEY) (POST_admin_events payload) w in
  fst out = Err InternalServerError
  /\ events (database (snd out))
     = events (database w) ++ [created_event (database w) payload]
  /\ fst (serve rt api_key GET_events (snd out)) = Err InternalServerError.
Proof.
  intros Hline Hlen Htext Hurl Hbad out.
  assert (Hnot : event_out_ok rt (created_event (database w) payload)
                 = false).
  { unfold event_out_ok, created_event. cbn [Event.cover_url].
    rewrite Hurl. exact Hbad. }
  assert (Hout : out =
    (Err InternalServerError,
     mkWorld (set_events
                (fun t => t ++ [created_event (database w) payload])
                (database w)) (media w))).
  { subst out. rewrite serve_create_event. rewrite Hline, orb_false_r.
    apply Nat.ltb_ge in Hlen. rewrite Hlen, Htext. cbv zeta. rewrite Hnot.
    reflexivity. }
  rewrite Hout. cbn [fst snd database events set_events].
  split; [reflexivity|]. split; [reflexivity|].
  rewrite serve_list_events. cbn [database events set_events].
  rewrite forallb_app. cbn [forallb]. rewrite Hnot, andb_false_r.
  reflexivity.
Qed.

Lemma event_with_bad_cover_url_breaks_listing_witness :
  fst (serve Sample.strict_rt (Some ADMIN_API_KEY)
         (POST_admin_events
            (mkEventCreate (py "Fair") 739000 (py "Hi!")
               (Some (py "/static/fair.png")))) Sample.world)
  = Err InternalServerError
  /\ fst (serve Sample.strict_rt None GET_events
            (snd (serve Sample.strict_rt (Some ADMIN_API_KEY)
                    (POST_admin_events
                       (mkEventCreate (py "Fair") 739000 (py "Hi!")
                          (Some (py "/static/fair.png")))) Sample.world)))
     = Err InternalServerError.
Proof.
  destruct (event_with_bad_cover_url_breaks_listing Sample.strict_rt None
              (mkEventCreate (py "Fair") 739000 (py "Hi!")
                 (Some (py "/static/fair.png")))
              (py "/static/fair.png") Sample.world
              eq_refl ltac:(vm_compute; lia) eq_refl eq_refl eq_refl)
    as (Hfail & _ & Hlist).
  split; [exact Hfail|exact Hlist].
Defined.

(** ** Attaching a gallery photo by URL *)

Lemma first_by_section (i : Z) (s : Store) :
  match first_by GallerySection.id i (gallery_sections s) with
  | Some _ => section_exists i s = true
  | None => section_exists i s = false
  end.
Proof.
  destruct (first_by GallerySection.id i (gallery_sections s)) as [g|] eqn:E.
  - unfold section_exists. apply existsb_exists. exists g.
    apply find_some in E. exact E.
  - apply first_by_none in E. exact E.
Qed.

Lemma serve_add_gallery_photo (rt : Runtime) (payload : GalleryPhotoCreate)
    (w : World) :
  serve rt (Some ADMIN_API_KEY) (POST_admin_gallery_photos payload) w
  = if section_exists (gpc_section_id payload) (database w)
    then
      if encodable (gpc_url payload)
      then (Ok (PhotoItem (gallery_photo_out
                             (attached_photo (database w) payload))),
            mkWorld (set_gallery_photos
                       (fun t => t ++ [attached_photo (database w) payload])
                       (database w)) (media w))
      else (Err InternalServerError, w)
    else (if sqlite_int_ok (gpc_section_id payload)
          then Err (HTTPException 404 (py "Раздел галереи не найден"))
          else Err InternalServerError, w).
Proof.
  destruct w as [db md]. cbn [database media].
  unfold serve, run_request, route.
  unfold bind at 1. rewrite require_admin_accepts.
  unfold bind at 1. unfold admin_add_gallery_photo.
  unfold bind at 1. rewrite select_first_run.
  cbn [session database media].
  pose proof (first_by_section (gpc_section_id payload) db) as Hsec.
  destruct (first_by GallerySection.id (gpc_section_id payload)
              (gallery_sections db)); rewrite Hsec;
    [|destruct (sqlite_int_ok (gpc_section_id payload)); reflexivity].
  unfold bind at 1. rewrite bind_text_run. cbn [forallb].
  rewrite andb_true_r.
  destruct (encodable (gpc_url payload)); [|reflexivity].
  unfold bind at 1. unfold add_gallery_photo.
  unfold bind at 1. unfold query at 1. unfold bind at 1.
  unfold execute at 1. unfold ret at 1.
  unfold bind at 1. unfold commit at 1.
  unfold refresh. unfold bind at 1. unfold query at 1.
  cbn [session committed disk gallery_photos set_gallery_photos].
  rewrite (find_fresh GalleryPhoto.id (gallery_photos db)) by reflexivity.
  reflexivity.
Qed.

(** X15: with the admin key, attaching a photo whose URL encodes as UTF-8
    to a stored section identifier appends one photo row with the given
    URL, that section and a key no stored photo has, and keeps the photos'
    references to sections intact; a section identifier that fits a signed
    64-bit integer and is the identifier of no section fails with the 404
    [HTTPException] and nothing is stored. *)
Theorem add_gallery_photo_outcome (rt : Runtime)
    (payload : GalleryPhotoCreate) (w : World) :
  let out := serve rt (Some ADMIN_API_KEY)
               (POST_admin_gallery_photos payload) w in
  let row := attached_photo (database w) payload in
  (section_exists (gpc_section_id payload) (database w) = true ->
   encodable (gpc_url payload) = true ->
     out = (Ok (PhotoItem (mkGalleryPhotoOut (GalleryPhoto.id row)
                             (gpc_url payload))),
            mkWorld (set_gallery_photos (fun t => t ++ [row]) (database w))
                    (media w))
     /\ Forall (fun p => GalleryPhoto.id p <> GalleryPhoto.id row)
               (gallery_photos (database w))
     /\ (photos_reference_sections (database w) = true ->
         photos_reference_sections (database (snd out)) = true))
  /\ (section_exists (gpc_section_id payload) (database w) = false ->
      sqlite_int_ok (gpc_section_id payload) = true ->
      out = (Err (HTTPException 404 (py "Раздел галереи не найден")), w)).
Proof.
  intros out row. subst out. rewrite serve_add_gallery_photo. fold row.
  split; intros Hex; rewrite Hex;
    [intros Hurl; rewrite Hurl|intros Hfit; rewrite Hfit; reflexivity].
  split; [reflexivity|]. split.
  - apply Forall_forall. intros p Hin.
    pose proof (next_id_fresh GalleryPhoto.id (gallery_photos (database w))
                  p Hin).
    subst row. unfold attached_photo. cbn [GalleryPhoto.id]. lia.
  - cbn [snd database]. unfold photos_reference_sections, section_exists.
    cbn [gallery_photos gallery_sections set_gallery_photos].
    intros Hfk. rewrite forallb_app, Hfk. cbn [forallb].
    subst row. unfold attached_photo. cbn [GalleryPhoto.section_id].
    unfold section_exists in Hex. rewrite Hex. reflexivity.
Qed.

Lemma add_gallery_photo_outcome_witness :
  serve Sample.rt (Some ADMIN_API_KEY)
    (POST_admin_gallery_photos (mkGalleryPhotoCreate 2 (py "/static/x.png")))
    Sample.world
  = (Ok (PhotoItem (mkGalleryPhotoOut 1 (py "/static/x.png"))),
     mkWorld (set_gallery_photos
                (fun t => t ++ [GalleryPhoto.mk 1 2 (py "/static/x.png")])
                Sample.store) [])
  /\ serve Sample.rt (Some ADMIN_API_KEY)
       (POST_admin_gallery_photos
          (mkGalleryPhotoCreate 9 (py "/static/x.png"))) Sample.world
     = (Err (HTTPException 404 (py "Раздел галереи не найден")),
        Sample.world).
Proof.
  split.
  - apply (proj1 (add_gallery_photo_outcome Sample.rt
                    (mkGalleryPhotoCreate 2 (py "/static/x.png"))
                    Sample.world)); reflexivity.
  - apply (proj2 (add_gallery_photo_outcome Sample.rt
                    (mkGalleryPhotoCreate 9 (py "/static/x.png"))
                    Sample.world)); reflexivity.
Defined.

(** ** Deleting an event *)

Lemma serve_delete_event (rt : Runtime) (event_id : Z) (w : World) :
  serve rt (Some ADMIN_API_KEY) (DELETE_admin_events event_id) w
  = if event_exists event_id (database w)
    then (Ok (Deleted event_id),
          mkWorld (set_events (delete_by Event.id event_id) (database w))
                  (media w))
    else (if sqlite_int_ok event_id
          then Err (HTTPException 404 (py "Мероприятие не найдено"))
          else Err InternalServerError, w).
Proof.
  destruct w as [db md]. cbn [database media].
  unfold serve, run_request, route.
  unfold bind at 1. rewrite require_admin_accepts.
  unfold bind at 1. unfold admin_delete_event.
  unfold bind at 1. rewrite select_first_run.
  cbn [session database media]. unfold event_exists.
  destruct (first_by Event.id event_id (events db)) as [e|] eqn:E.
  - destruct (first_by_key _ _ _ _ E) as [Hid Hin].
    assert (Hex : existsb (fun e0 => bool_decide (Event.id e0 = event_id))
                          (events db) = true).
    { apply existsb_exists. exists e. split.
      - apply list_elem_of_In; exact Hin.
      - apply bool_decide_eq_true_2; exact Hid. }
    rewrite Hex. unfold bind, execute, commit, ret. rewrite Hid.
    reflexivity.
  - apply first_by_none in E. rewrite E.
    destruct (sqlite_int_ok event_id); reflexivity.
Qed.

Lemma event_exists_deleted (i : Z) (s : Store) :
  event_exists i (set_events (delete_by Event.id i) s) = false.
Proof.
  unfold event_exists, delete_by. cbn [events set_events].
  apply not_true_iff_false. intros H. apply existsb_exists in H.
  destruct H as (e & Hin & Hid).
  apply list_elem_of_In, list_elem_of_filter in Hin.
  apply bool_decide_eq_true_1 in Hid. tauto.
Qed.

(** X16: for an event identifier that fits a signed 64-bit integer and
    with the admin key, deleting a stored identifier succeeds and removes
    exactly the events with that identifier; a second deletion of the same
    identifier, like the deletion of any identifier of no event, fails with
    the 404 [HTTPException] and changes nothing. *)
Theorem delete_event_outcome (rt : Runtime) (event_id : Z) (w : World) :
  sqlite_int_ok event_id = true ->
  let delete := serve rt (Some ADMIN_API_KEY)
                      (DELETE_admin_events event_id) in
  (event_exists event_id (database w) = true ->
     delete w = (Ok (Deleted event_id),
                 mkWorld (set_events (delete_by Event.id event_id)
                                     (database w)) (media w))
     /\ (forall e, e ∈ events (database (snd (delete w))) <->
           e ∈ events (database w) /\ Event.id e <> event_id)
     /\ delete (snd (delete w))
        = (Err (HTTPException 404 (py "Мероприятие не найдено")),
           snd (delete w)))
  /\ (event_exists event_id (database w) = false ->
      delete w = (Err (HTTPException 404 (py "Мероприятие не найдено")), w)).
Proof.
  intros Hfit delete. subst delete. rewrite !serve_delete_event.
  rewrite Hfit. split.
  - intros Hex. rewrite Hex. cbn [snd database media].
    split; [reflexivity|]. split.
    + intros e. unfold delete_by. cbn [events set_events].
      rewrite list_elem_of_filter. tauto.
    + rewrite event_exists_deleted. reflexivity.
  - intros Hno. rewrite Hno. reflexivity.
Qed.

Lemma delete_event_outcome_witness :
  serve Sample.rt (Some ADMIN_API_KEY) (DELETE_admin_events 4) Sample.world
  = (Err (HTTPException 404 (py "Мероприятие не найдено")), Sample.world)
  /\ serve Sample.rt (Some ADMIN_API_KEY) (DELETE_admin_events 1)
       (mkWorld (mkStore [] [] [] [Event.mk 1 (py "Fair") 739000 (py "Hi!")
                                             None] [] [] []) [])
     = (Ok (Deleted 1),
        mkWorld (set_events (delete_by Event.id 1)
                   (mkStore [] [] [] [Event.mk 1 (py "Fair") 739000
                                                (py "Hi!") None] [] [] []))
                []).
Proof.
  split.
  - apply (proj2 (delete_event_outcome Sample.rt 4 Sample.world eq_refl)).
    reflexivity.
  - apply (proj1 (delete_event_outcome Sample.rt 1
             (mkWorld (mkStore [] [] [] [Event.mk 1 (py "Fair") 739000
                                                   (py "Hi!") None] [] [] [])
                      []) eq_refl)).
    reflexivity.
Defined.

(** ** Places *)




(** ** The public listing in reachable worlds *)



(** ** Renaming a section *)

Lemma serve_rename_section (rt : Runtime) (section_id : Z)
    (payload : GallerySectionCreate) (w : World) :
  serve rt (Some ADMIN_API_KEY)
        (PUT_admin_gallery_sections section_id payload) w
  = if section_exists section_id (database w)
    then
      if encodable (gsc_name payload)
      then (Ok (SectionItem
                  (gallery_section_out (database w)
                     (GallerySection.mk section_id (gsc_name payload)))),
            mkWorld (renamed_store section_id (gsc_name payload)
                                   (database w))
                    (media w))
      else (Err InternalServerError, w)
    else (if sqlite_int_ok section_id
          then Err (HTTPException 404 (py "Раздел галереи не найден"))
          else Err InternalServerError, w).
Proof.
  destruct w as [db md]. cbn [database media].
  unfold serve, run_request, route.
  unfold bind at 1. rewrite require_admin_accepts.
  unfold bind at 1. unfold admin_rename_gallery_section.
  unfold bind at 1. rewrite select_first_run.
  cbn [session database media].
  pose proof (first_by_section section_id db) as Hsec.
  destruct (first_by GallerySection.id section_id (gallery_sections db))
    as [g|] eqn:E; rewrite Hsec;
    [|destruct (sqlite_int_ok section_id); reflexivity].
  destruct (first_by_key _ _ _ _ E) as [Hid _].
  cbv zeta. unfold bind at 1. rewrite bind_text_run. cbn [forallb].
  rewrite andb_true_r.
  destruct (encodable (gsc_name payload)); [|reflexivity].
  unfold bind at 1. unfold execute at 1.
  unfold bind at 1. unfold commit at 1.
  unfold refresh. unfold bind at 1. unfold query at 1.
  cbn [session committed disk gallery_sections set_gallery_sections
       GallerySection.id].
  rewrite Hid.
  fold (first_by GallerySection.id section_id
          (update_by GallerySection.id section_id
             (fun _ => GallerySection.mk section_id (gsc_name payload))
             (gallery_sections db))).
  rewrite first_by_update by reflexivity. rewrite E. reflexivity.
Qed.

(** X19: with the admin key, renaming a stored section identifier to a
    name that encodes as UTF-8 keeps the identifier, gives the section the
    new name and leaves its photos where they are: the answer shows the
    section under its new name with exactly the photos that belonged to it,
    and no photo row changes.  An identifier that fits a signed 64-bit
    integer and is the identifier of no section fails with the 404
    [HTTPException] and nothing changes. *)
Theorem rename_section_outcome (rt : Runtime) (section_id : Z)
    (payload : GallerySectionCreate) (w : World) :
  let out := serve rt (Some ADMIN_API_KEY)
               (PUT_admin_gallery_sections section_id payload) w in
  (section_exists section_id (database w) = true ->
   encodable (gsc_name payload) = true ->
     fst out = Ok (SectionItem
                     (mkGallerySectionOut section_id (gsc_name payload)
                        (map gallery_photo_out
                           (filter (fun p => GalleryPhoto.section_id p
                                             = section_id)
                                   (gallery_photos (database w))))))
     /\ gallery_photos (database (snd out)) = gallery_photos (database w)
     /\ map GallerySection.id (gallery_sections (database (snd out)))
        = map GallerySection.id (gallery_sections (database w))
     /\ (forall g, g ∈ gallery_sections (database (snd out)) ->
           GallerySection.id g = section_id ->
           GallerySection.name g = gsc_name payload)
     /\ media (snd out) = media w)
  /\ (section_exists section_id (database w) = false ->
      sqlite_int_ok section_id = true ->
      out = (Err (HTTPException 404 (py "Раздел галереи не найден")), w)).
Proof.
  intros out. subst out. rewrite serve_rename_section.
  split; intros Hex; rewrite Hex;
    [intros Hname; rewrite Hname|intros Hfit; rewrite Hfit; reflexivity].
  cbn [fst snd database media renamed_store gallery_photos gallery_sections
       set_gallery_sections].
  split; [reflexivity|]. split; [reflexivity|]. split; [|split].
  - unfold update_by. rewrite map_map. apply map_ext_in.
    intros g _. destruct (bool_decide (GallerySection.id g = section_id))
      eqn:E; [|reflexivity].
    apply bool_decide_eq_true_1 in E. rewrite E. reflexivity.
  - intros g Hg Hid. apply update_by_elem in Hg.
    destruct Hg as (g0 & _ & ->).
    destruct (bool_decide (GallerySection.id g0 = section_id)) eqn:E;
      [reflexivity|].
    apply bool_decide_eq_false_1 in E. contradiction.
  - reflexivity.
Qed.

Lemma rename_section_outcome_witness :
  fst (serve Sample.rt (Some ADMIN_API_KEY)
         (PUT_admin_gallery_sections 2 (mkGallerySectionCreate (py "Spring")))
         Sample.world)
  = Ok (SectionItem (mkGallerySectionOut 2 (py "Spring") []))
  /\ serve Sample.rt (Some ADMIN_API_KEY)
       (PUT_admin_gallery_sections 8 (mkGallerySectionCreate (py "Spring")))
       Sample.world
     = (Err (HTTPException 404 (py "Раздел галереи не найден")),
        Sample.world).
Proof.
  split.
  - apply (proj1 (rename_section_outcome Sample.rt 2
                    (mkGallerySectionCreate (py "Spring")) Sample.world));
      reflexivity.
  - apply (proj2 (rename_section_outcome Sample.rt 8
                    (mkGallerySectionCreate (py "Spring")) Sample.world));
      reflexivity.
Defined.
